(** * Colour modes of ridgeplot: a shallow embedding of
    [src/ridgeplot/_colormodes.py] and the properties of its five
    interpolation strategies and of [compute_trace_colors].

    Numbers.  Python's [int] is [Z].  A value of the [Numeric] union of the
    source (an int or a finite float) is the rational [Q] it denotes, and
    the arithmetic on these values, which Python rounds after every
    operation on floats, is a parameter [Arithmetic] of the mean-based
    strategies: nothing is assumed about how a sum, a product or a quotient
    is rounded.  Tests against zero and comparisons are on the values.  The
    true division of two ints is one quotient, kept in lowest terms.
    Infinities and NaN are not modelled.

    Exceptions.  A Python function that may raise returns a [result]; the
    first exception raised, in Python's evaluation order, is the one
    returned. *)

From Stdlib Require Import String Ascii.
From Stdlib Require Import List ZArith QArith Qreduction Bool Lia.
Import ListNotations.

Local Open Scope list_scope.

(** ** Exceptions and the error monad *)

Inductive exn : Type :=
| ZeroDivisionError
| ValueError (msg : string).

Inductive result (A : Type) : Type :=
| Ok (a : A)
| Err (e : exn).

Arguments Ok {A} a.
Arguments Err {A} e.

Definition bind {A B : Type} (c : result A) (k : A -> result B) : result B :=
  match c with
  | Ok a => k a
  | Err e => Err e
  end.

Notation "x <- c1 ;; c2" := (bind c1 (fun x => c2))
  (at level 61, c1 at next level, right associativity).
Notation "' pat <- c1 ;; c2" := (bind c1 (fun x => match x with pat => c2 end))
  (at level 61, pat pattern, c1 at next level, right associativity).

Definition is_ok {A : Type} (c : result A) : bool :=
  match c with Ok _ => true | Err _ => false end.

(** ** The arithmetic of [Numeric] values *)

(** What [a + b], [a * b] and [a / b] (for a non-zero [b]) evaluate to on
    [Numeric] values. *)
Record Arithmetic : Type := mkArithmetic {
  num_add : Q -> Q -> Q;
  num_mul : Q -> Q -> Q;
  num_div : Q -> Q -> Q
}.

(** The arithmetic that never rounds, as on ints and on floats when every
    intermediate result is representable. *)
Definition exact_arith : Arithmetic :=
  {| num_add := Qplus;
     num_mul := Qmult;
     num_div := fun a b => Qred (a / b) |}.

(** ** Python built-ins used by the module *)

Module Py.

(** A list comprehension [[f(a) for a in l]]: elements are evaluated from
    left to right and the first exception aborts the whole comprehension. *)
Fixpoint mapM {A B : Type} (f : A -> result B) (l : list A) : result (list B) :=
  match l with
  | [] => Ok []
  | a :: l' => b <- f a ;; bs <- mapM f l' ;; Ok (b :: bs)
  end.

(** A [for a in l: ...] loop whose body updates the local state [s]. *)
Fixpoint for_each {A S : Type} (body : S -> A -> result S) (l : list A) (s : S)
  : result S :=
  match l with
  | [] => Ok s
  | a :: l' => s' <- body s a ;; for_each body l' s'
  end.

(** [enumerate(l)], generalised to a start index. *)
Fixpoint enumerate_from {A : Type} (i : Z) (l : list A) : list (Z * A) :=
  match l with
  | [] => []
  | a :: l' => (i, a) :: enumerate_from (i + 1) l'
  end.

Definition enumerate {A : Type} (l : list A) : list (Z * A) := enumerate_from 0 l.

(** [range(n)] for [n = len(...)]. *)
Definition range (n : nat) : list Z := map Z.of_nat (seq 0 n).

(** [len(l)] as a Python int. *)
Definition len {A : Type} (l : list A) : Z := Z.of_nat (length l).

(** [[v] * n]. *)
Definition list_mul {A : Type} (v : A) (n : Z) : list A := repeat v (Z.to_nat n).

(** [sum(l)] on numbers: starts from [0] and adds from left to right. *)
Definition sum (ar : Arithmetic) (l : list Q) : Q := fold_left (num_add ar) l 0%Q.

(** [sum(l)] on ints. *)
Definition sum_int (l : list Z) : Z := fold_left Z.add l 0%Z.

(** [a / b] on numbers: raises on a zero divisor. *)
Definition truediv (ar : Arithmetic) (a b : Q) : result Q :=
  if Qeq_bool b 0 then Err ZeroDivisionError else Ok (num_div ar a b).

(** [a / b] on ints: true division, the result is a float. *)
Definition int_truediv (a b : Z) : result Q :=
  if Z.eqb b 0 then Err ZeroDivisionError
  else Ok (Qred (inject_Z a / inject_Z b)).

(** [float(v)]: the identity on the embedding of numbers. *)
Definition float (v : Q) : Q := v.

Definition Qltb (a b : Q) : bool := negb (Qle_bool b a).

(** [min(l)]: the first smallest element; raises on an empty list. *)
Definition min (l : list Q) : result Q :=
  match l with
  | [] => Err (ValueError "min() arg is an empty sequence")
  | v :: l' => Ok (fold_left (fun m w => if Qltb w m then w else m) l' v)
  end.

(** [max(l)]: the first largest element; raises on an empty list. *)
Definition max (l : list Q) : result Q :=
  match l with
  | [] => Err (ValueError "max() arg is an empty sequence")
  | v :: l' => Ok (fold_left (fun m w => if Qltb m w then w else m) l' v)
  end.

(** [x, y = zip( *trace )] for a sequence of pairs: the unpacking needs
    exactly two tuples, and zipping no argument at all yields none. *)
Definition unzip2 {A B : Type} (l : list (A * B)) : result (list A * list B) :=
  match l with
  | [] => Err (ValueError "not enough values to unpack (expected 2, got 0)")
  | _ => Ok (map fst l, map snd l)
  end.

(** [repr] of a string without quotes or escapes in it. *)
Definition repr_str (s : string) : string := ("'" ++ s ++ "'")%string.

(** [repr] of a tuple of such strings. *)
Definition repr_tuple (l : list string) : string :=
  match l with
  | [s] => ("(" ++ repr_str s ++ ",)")%string
  | _ => ("(" ++ String.concat ", " (map repr_str l) ++ ")")%string
  end.

(** [key in d] and [d[key]] on a dict with string keys, kept in insertion
    order. *)
Fixpoint lookup {V : Type} (key : string) (d : list (string * V)) : option V :=
  match d with
  | [] => None
  | (k, v) :: d' => if String.eqb key k then Some v else lookup key d'
  end.

Definition keys {V : Type} (d : list (string * V)) : list string := map fst d.

End Py.

(** ** Data model *)

(** A trace is a sequence of [(x, y)] points, a row a sequence of traces and
    the densities a sequence of rows. *)
Definition Trace : Type := list (Q * Q).
Definition Densities : Type := list (list Trace).

(** [ColorscaleInterpolants = CollectionL2[float]]. *)
Definition ColorscaleInterpolants : Type := list (list Q).

Record InterpolationContext : Type := mkInterpolationContext {
  densities : Densities;
  n_rows : Z;
  n_traces : Z;
  x_min : Q;
  x_max : Q
}.

(** The shape of a two-level collection: its per-row lengths. *)
Definition shape {A : Type} (grid : list (list A)) : list nat := map (@length A) grid.

(** Every row has at least one trace and every trace at least one point. *)
Definition valid_densities (d : Densities) : Prop :=
  Forall (fun row => row <> [] /\ Forall (fun trace : Trace => trace <> []) row) d.

Definition valid_densitiesb (d : Densities) : bool :=
  forallb
    (fun row : list Trace =>
       negb (Nat.eqb (length row) 0)
       && forallb (fun trace : Trace => negb (Nat.eqb (length trace) 0)) row)
    d.

(** [_mul(a, b)]: multiply two tuples element-wise. *)
Definition _mul (ar : Arithmetic) (a b : list Q) : list Q :=
  map (fun '(a_i, b_i) => num_mul ar a_i b_i) (combine a b).

(** ** The index-based strategies *)

Definition _interpolate_row_index (ctx : InterpolationContext)
  : result ColorscaleInterpolants :=
  Py.mapM
    (fun '(ith_row, row) =>
       p <- Py.int_truediv ((n_rows ctx - 1) - ith_row) (n_rows ctx - 1) ;;
       Ok (Py.list_mul p (Py.len row)))
    (Py.enumerate (densities ctx)).

Definition _interpolate_trace_index (ctx : InterpolationContext)
  : result ColorscaleInterpolants :=
  ' (ps, _) <-
    Py.for_each
      (fun '(ps, ith_trace) (row : list Trace) =>
         ' (ps_row, ith_trace) <-
           Py.for_each
             (fun '(ps_row, ith_trace) (_ : Trace) =>
                p <- Py.int_truediv ((n_traces ctx - 1) - ith_trace) (n_traces ctx - 1) ;;
                Ok (ps_row ++ [p], (ith_trace + 1)%Z))
             row ([], ith_trace) ;;
         Ok (ps ++ [ps_row], ith_trace))
      (densities ctx) ([], 0%Z) ;;
  Ok ps.

Definition _interpolate_trace_index_row_wise (ctx : InterpolationContext)
  : result ColorscaleInterpolants :=
  Py.mapM
    (fun row : list Trace =>
       Py.mapM
         (fun ith_row_trace =>
            Py.int_truediv ((Py.len row - 1) - ith_row_trace) (Py.len row - 1))
         (Py.range (length row)))
    (densities ctx).

(** ** The collaborators and the strategies that use them

    [ridgeplot._utils] ([get_xy_extrema], [normalise_min_max]) and
    [ridgeplot._colors] ([normalise_colorscale], [interpolate_color],
    [apply_alpha]) are imported by the module; their behaviour is a parameter
    of everything below. *)

Definition InterpolationFunc : Type :=
  InterpolationContext -> result ColorscaleInterpolants.

Section Colormodes.

Variable get_xy_extrema : Densities -> result (Q * Q * Q * Q).
Variable ar : Arithmetic.
Variable normalise_min_max : Q -> Q -> Q -> result Q.
Variables ColorScaleArg ColorScale Color : Type.
Variable normalise_colorscale : ColorScaleArg -> result ColorScale.
Variable interpolate_color : ColorScale -> Q -> result Color.
Variable apply_alpha : Color -> Q -> result Color.

(** [ColorsArray = CollectionL2[str]]. *)
Definition ColorsArray : Type := list (list Color).

(** [InterpolationContext.from_densities]. *)
Definition from_densities (densities : Densities) : result InterpolationContext :=
  ' (x_min, x_max, _, _) <- get_xy_extrema densities ;;
  Ok {| densities := densities;
        n_rows := Py.len densities;
        n_traces := Py.sum_int (map (fun row => Py.len row) densities);
        x_min := Py.float x_min;
        x_max := Py.float x_max |}.

Definition _interpolate_mean_minmax (ctx : InterpolationContext)
  : result ColorscaleInterpolants :=
  Py.for_each
    (fun ps (row : list Trace) =>
       ps_row <-
         Py.for_each
           (fun ps_row (trace : Trace) =>
              ' (x, y) <- Py.unzip2 trace ;;
              mean <- Py.truediv ar (Py.sum ar (_mul ar x y)) (Py.sum ar y) ;;
              p <- normalise_min_max mean (x_min ctx) (x_max ctx) ;;
              Ok (ps_row ++ [p]))
           row [] ;;
       Ok (ps ++ [ps_row]))
    (densities ctx) [].

Definition _interpolate_mean_means (ctx : InterpolationContext)
  : result ColorscaleInterpolants :=
  means <-
    Py.for_each
      (fun means (row : list Trace) =>
         means_row <-
           Py.for_each
             (fun means_row (trace : Trace) =>
                ' (x, y) <- Py.unzip2 trace ;;
                mean <- Py.truediv ar (Py.sum ar (_mul ar x y)) (Py.sum ar y) ;;
                Ok (means_row ++ [mean]))
             row [] ;;
         Ok (means ++ [means_row]))
      (densities ctx) [] ;;
  row_mins <- Py.mapM Py.min means ;;
  min_mean <- Py.min row_mins ;;
  row_maxs <- Py.mapM Py.max means ;;
  max_mean <- Py.max row_maxs ;;
  Py.mapM (Py.mapM (fun mean => normalise_min_max mean min_mean max_mean)) means.

Definition COLORMODE_MAPS : list (string * InterpolationFunc) :=
  [ ("row-index"%string, _interpolate_row_index);
    ("trace-index"%string, _interpolate_trace_index);
    ("trace-index-row-wise"%string, _interpolate_trace_index_row_wise);
    ("mean-minmax"%string, _interpolate_mean_minmax);
    ("mean-means"%string, _interpolate_mean_means) ].

(** The message of the [ValueError] raised on an unknown colormode. *)
Definition colormode_error_message (colormode : string) : string :=
  ("The colormode argument should be one of "
     ++ Py.repr_tuple (Py.keys COLORMODE_MAPS)
     ++ ", got " ++ colormode ++ " instead.")%string.

(** The local function [_get_color] of [compute_trace_colors], with the two
    variables it closes over as arguments. *)
Definition _get_color (colorscale : ColorScale) (coloralpha : option Q) (p : Q)
  : result Color :=
  color <- interpolate_color colorscale p ;;
  match coloralpha with
  | Some alpha => apply_alpha color alpha
  | None => Ok color
  end.

Definition compute_trace_colors
  (colorscale : ColorScaleArg) (colormode : string) (coloralpha : option Q)
  (interpolation_ctx : InterpolationContext) : result ColorsArray :=
  colorscale <- normalise_colorscale colorscale ;;
  let coloralpha := option_map Py.float coloralpha in
  let _get_color := _get_color colorscale coloralpha in
  match Py.lookup colormode COLORMODE_MAPS with
  | None => Err (ValueError (colormode_error_message colormode))
  | Some interpolate_func =>
      interpolants <- interpolate_func interpolation_ctx ;;
      Py.mapM (Py.mapM _get_color) interpolants
  end.

End Colormodes.

Arguments compute_trace_colors ar normalise_min_max {ColorScaleArg ColorScale Color}
  normalise_colorscale interpolate_color apply_alpha
  colorscale colormode coloralpha interpolation_ctx.
Arguments _get_color {ColorScale Color} interpolate_color apply_alpha
  colorscale coloralpha p.

(** ** Specification-side definitions

    These follow the wording of the specification, not the code; the
    theorems below compare them with the functions above. *)

(** The position formula of the three index-based strategies:
    [((n - 1) - i) / (n - 1)]. *)
Definition index_position (n i : Z) : result Q :=
  Py.int_truediv ((n - 1) - i) (n - 1).

(** The [n] consecutive indices from [i] on. *)
Fixpoint count_from (i : Z) (n : nat) : list Z :=
  match n with
  | O => []
  | S n' => i :: count_from (i + 1) n'
  end.

(** Positions [g] of the global trace indices, row after row, the first
    trace of [rows] having global index [i]. *)
Fixpoint positions_by_global_index (g : Z -> result Q) (i : Z) (rows : list (list Trace))
  : result ColorscaleInterpolants :=
  match rows with
  | [] => Ok []
  | row :: rest =>
      r <- Py.mapM g (count_from i (length row)) ;;
      rs <- positions_by_global_index g (i + Py.len row) rest ;;
      Ok (r :: rs)
  end.

(** The total y-mass of a trace, [Σ(y)], in the arithmetic [ar]. *)
Definition total_mass (ar : Arithmetic) (trace : Trace) : Q :=
  Py.sum ar (map snd trace).

(** [Σ(x·y)], in the arithmetic [ar]. *)
Definition first_moment (ar : Arithmetic) (trace : Trace) : Q :=
  Py.sum ar (_mul ar (map fst trace) (map snd trace)).

(** The weighted mean x of a trace, [Σ(x·y)/Σ(y)], in the arithmetic [ar]. *)
Definition weighted_mean_x (ar : Arithmetic) (trace : Trace) : Q :=
  num_div ar (first_moment ar trace) (total_mass ar trace).

(** The same three numbers without any rounding. *)
Fixpoint exact_total_mass (trace : Trace) : Q :=
  match trace with
  | [] => 0
  | (_, y) :: trace' => y + exact_total_mass trace'
  end.

Fixpoint exact_first_moment (trace : Trace) : Q :=
  match trace with
  | [] => 0
  | (x, y) :: trace' => x * y + exact_first_moment trace'
  end.

Definition exact_weighted_mean_x (trace : Trace) : Q :=
  Qred (exact_first_moment trace / exact_total_mass trace).

(** The expression both mean-based strategies evaluate on a trace. *)
Definition trace_mean (ar : Arithmetic) (trace : Trace) : result Q :=
  ' (x, y) <- Py.unzip2 trace ;;
  Py.truediv ar (Py.sum ar (_mul ar x y)) (Py.sum ar y).



(** A substring: [name] occurs in [msg]. *)
Definition occurs_in (name msg : string) : Prop :=
  exists pre post : string, msg = (pre ++ name ++ post)%string.

(** ** The collaborators, modelled from the specification *)

Module SpecModel.

(** Modelled from the spec: [get_xy_extrema] of [ridgeplot._utils], which is
    not part of the sources at hand.  Section 4.1: the extrema are the
    min/max over all points of all traces of all rows; an empty grid or an
    empty row is an invalid input. *)
Definition get_xy_extrema (densities : Densities) : result (Q * Q * Q * Q) :=
  match densities with
  | [] => Err (ValueError "the densities grid is empty")
  | _ =>
      if existsb (fun row : list Trace => match row with [] => true | _ => false end)
                 densities
      then Err (ValueError "a row of the densities grid is empty")
      else
        let points := concat (concat densities) in
        x_min <- Py.min (map fst points) ;;
        x_max <- Py.max (map fst points) ;;
        y_min <- Py.min (map snd points) ;;
        y_max <- Py.max (map snd points) ;;
        Ok (x_min, x_max, y_min, y_max)
  end.

(** Modelled from the spec: [normalise_min_max] of [ridgeplot._utils].
    Section 4.2: min-max normalisation, [(val - min) / (max - min)], which
    fails when [min == max]. *)
Definition normalise_min_max (val min_ max_ : Q) : result Q :=
  Py.truediv exact_arith (val - min_) (max_ - min_).

(** Modelled from the spec: the colours of [ridgeplot._colors].  A colour
    is kept as its channels rather than as a CSS string. *)
Record color : Type := mkColor {
  red : Q;
  green : Q;
  blue : Q;
  alpha : option Q
}.

(** The three accepted forms of a colour scale (section 4.3). *)
Inductive colorscale_arg : Type :=
| Named (identifier : string)
| Flat (colors : list color)
| Explicit (stops : list (Q * color)).

Definition ColorScale : Type := list (Q * color).

Definition evenly_spaced (colors : list color) : result ColorScale :=
  match colors with
  | [] => Err (ValueError "the colorscale is empty")
  | [c] => Ok [(0, c); (1, c)]
  | _ =>
      Py.mapM
        (fun '(i, c) => p <- Py.int_truediv i (Py.len colors - 1) ;; Ok (p, c))
        (Py.enumerate colors)
  end.

Fixpoint strictly_increasing (positions : list Q) : bool :=
  match positions with
  | p :: ((q :: _) as rest) => Py.Qltb p q && strictly_increasing rest
  | _ => true
  end.

(** Modelled from the spec: [normalise_colorscale] of [ridgeplot._colors]
    (section 4.3), over a registry [palettes] of built-in named scales. *)
Definition normalise_colorscale (palettes : list (string * list color))
  (colorscale : colorscale_arg) : result ColorScale :=
  match colorscale with
  | Named identifier =>
      match Py.lookup identifier palettes with
      | Some colors => evenly_spaced colors
      | None => Err (ValueError "unknown named colorscale")
      end
  | Flat colors => evenly_spaced colors
  | Explicit stops =>
      match stops with
      | [] => Err (ValueError "the colorscale is empty")
      | (first, _) :: _ =>
          if negb (Qeq_bool first 0)
                  || negb (Qeq_bool (last (map fst stops) 0) 1)
          then Err (ValueError "the scale must start at 0.0 and end at 1.0")
          else if negb (strictly_increasing (map fst stops))
          then Err (ValueError "the positions of the scale must increase")
          else Ok stops
      end
  end.

(** The first pair of neighbouring stops around [p]. *)
Fixpoint bracket (cs : ColorScale) (p : Q) : option ((Q * color) * (Q * color)) :=
  match cs with
  | lo :: ((hi :: _) as rest) =>
      if Qle_bool (fst lo) p && Qle_bool p (fst hi) then Some (lo, hi)
      else bracket rest p
  | _ => None
  end.

Definition blend (frac lo hi : Q) : Q := Qred (lo + frac * (hi - lo)).

(** Modelled from the spec: [interpolate_color] of [ridgeplot._colors]
    (section 4.4): linear interpolation of every channel between the stops
    around [p]; a position outside [[0, 1]] is an invalid input. *)
Definition interpolate_color (cs : ColorScale) (p : Q) : result color :=
  if negb (Qle_bool 0 p && Qle_bool p 1)
  then Err (ValueError "the position must be in [0, 1]")
  else
    match bracket cs p with
    | None => Err (ValueError "no stops around the position")
    | Some ((pos_lo, c_lo), (pos_hi, c_hi)) =>
        let frac :=
          if Qeq_bool pos_hi pos_lo then 0 else (p - pos_lo) / (pos_hi - pos_lo) in
        if Qeq_bool frac 0 then Ok c_lo
        else if Qeq_bool frac 1 then Ok c_hi
        else Ok {| red := blend frac (red c_lo) (red c_hi);
                   green := blend frac (green c_lo) (green c_hi);
                   blue := blend frac (blue c_lo) (blue c_hi);
                   alpha := alpha c_lo |}
    end.

(** Modelled from the spec: [apply_alpha] of [ridgeplot._colors] (section
    4.4): the colour with its alpha channel set. *)
Definition apply_alpha (c : color) (a : Q) : result color :=
  Ok {| red := red c; green := green c; blue := blue c; alpha := Some a |}.

(** A registry with one two-stop scale. *)
Definition palettes : list (string * list color) :=
  [ ("Viridis"%string,
     [ {| red := 68; green := 1; blue := 84; alpha := None |};
       {| red := 253; green := 231; blue := 37; alpha := None |} ]) ].

Definition compute_trace_colors :=
  compute_trace_colors exact_arith normalise_min_max (normalise_colorscale palettes)
                       interpolate_color apply_alpha.

End SpecModel.

(** ** Sample data *)

Module Samples.

Definition trace_A : Trace := [(0, 1); (1, 2); (2, 1)]%Q.
Definition trace_B : Trace := [(1, 1); (2, 3); (4, 1 # 2)]%Q.
Definition trace_C : Trace := [(3, 2); (5, 2)]%Q.
Definition massless : Trace := [(0, 0); (1, 0)]%Q.

Definition context (d : Densities) (xmin xmax : Q) : InterpolationContext :=
  {| densities := d;
     n_rows := Py.len d;
     n_traces := Py.sum_int (map (fun row => Py.len row) d);
     x_min := xmin;
     x_max := xmax |}.

Definition one_row : Densities := [[trace_A; trace_B]].
Definition three_rows : Densities := [[trace_A]; [trace_B]; [trace_C]].
Definition three_rows_permuted : Densities := [[trace_C]; [trace_A]; [trace_B]].
Definition mixed : Densities := [[trace_A; trace_B; trace_C]; [trace_B; trace_A]].
Definition uneven : Densities := [[trace_A; trace_B]; [trace_C]].
Definition with_massless : Densities := [[trace_A; massless]].
Definition single_trace : Densities := [[trace_A]].
Definition with_empty_row : Densities := [[trace_A]; []].

End Samples.

(** ** The token check of the changelog test

    [validate_tokens], the local function of [test_myst_roles] in
    [tests/cicd_utils/test_scripts/test_extract_latest_release_notes.py].
    Of a markdown-it token it reads [type], [children] ([None] or a list of
    tokens) and [meta], a dict that is taken here with string keys and string
    values.  How Python prints a dict in the message of the exception is a
    parameter [repr]. *)

Module MystRoles.

#[warnings="-register-all"]
Inductive Token : Type :=
| mkToken (type : string) (meta : list (string * string))
          (children : option (list Token)).

Definition type (token : Token) : string :=
  match token with mkToken type _ _ => type end.

Definition meta (token : Token) : list (string * string) :=
  match token with mkToken _ meta _ => meta end.

Definition children (token : Token) : option (list Token) :=
  match token with mkToken _ _ children => children end.

(** [d.get(key, default)]. *)
Definition dict_get (d : list (string * string)) (key default : string) : string :=
  match Py.lookup key d with
  | Some v => v
  | None => default
  end.

(** [token.type == "myst_role" and token.meta.get("name", "") != "gh-pr"]. *)
Definition unexpected_role (token : Token) : bool :=
  String.eqb (type token) "myst_role"
  && negb (String.eqb (dict_get (meta token) "name" "") "gh-pr").

Section Validate.

(** [repr] of a dict, as the f-string of the message formats [token.meta]. *)
Variable repr : list (string * string) -> string.

(** The body of the loop of [validate_tokens] on one token; the loop over
    the children is the recursive call of [validate_tokens]. *)
Fixpoint validate_token (token : Token) : result unit :=
  _ <- match children token with
       | Some ((_ :: _) as tkns) =>
           (fix validate_tokens (tkns : list Token) : result unit :=
              match tkns with
              | [] => Ok tt
              | token :: tkns' => _ <- validate_token token ;; validate_tokens tkns'
              end) tkns
       | _ => Ok tt
       end ;;
  if unexpected_role token
  then Err (ValueError ("Unexpected myst role: " ++ repr (meta token)))
  else Ok tt.

Fixpoint validate_tokens (tkns : list Token) : result unit :=
  match tkns with
  | [] => Ok tt
  | token :: tkns' => _ <- validate_token token ;; validate_tokens tkns'
  end.

(** What the check answers when [bad] is the first token it rejects. *)
Definition verdict (bad : option Token) : result unit :=
  match bad with
  | Some token =>
      Err (ValueError ("Unexpected myst role: " ++ repr (meta token)))
  | None => Ok tt
  end.

End Validate.

(** A token after all the tokens below it, in the order of the check. *)
Fixpoint descendants_then_self (token : Token) : list Token :=
  match children token with
  | Some tkns =>
      (fix all (tkns : list Token) : list Token :=
         match tkns with
         | [] => []
         | token :: tkns' => descendants_then_self token ++ all tkns'
         end) tkns
  | None => []
  end ++ [token].

Definition tokens_in_order (tkns : list Token) : list Token :=
  flat_map descendants_then_self tkns.

End MystRoles.

Module TokenSamples.

(** [repr] of a dict whose keys and values are made of letters, digits and
    dashes: every string in single quotes, nothing to escape. *)
Definition repr_plain_dict (d : list (string * string)) : string :=
  ("{"
     ++ String.concat ", "
          (map (fun '(k, v) => Py.repr_str k ++ ": " ++ Py.repr_str v) d)
     ++ "}")%string.

(** A paragraph whose inline token holds two roles, the second one
    unexpected. *)
Definition gh_pr_role : MystRoles.Token :=
  MystRoles.mkToken "myst_role" [("name", "gh-pr")]%string None.
Definition other_role : MystRoles.Token :=
  MystRoles.mkToken "myst_role" [("name", "gh-issue")]%string None.
Definition inline : MystRoles.Token :=
  MystRoles.mkToken "inline" [] (Some [gh_pr_role; other_role]).

End TokenSamples.
(** ** Facts about the error monad and the Python built-ins *)

Lemma bind_Ok_inv {A B : Type} (c : result A) (k : A -> result B) (b : B) :
  bind c k = Ok b -> exists a, c = Ok a /\ k a = Ok b.
Proof.
  destruct c as [a | e]; simpl; intros H.
  - exists a; split; [reflexivity | exact H].
  - discriminate H.
Qed.

Lemma bind_assoc {A B C : Type} (c : result A) (k : A -> result B) (h : B -> result C) :
  bind (bind c k) h = bind c (fun a => bind (k a) h).
Proof. destruct c; reflexivity. Qed.

Lemma bind_Ok_r {A : Type} (c : result A) : bind c (fun a => Ok a) = c.
Proof. destruct c; reflexivity. Qed.

Lemma bind_ext {A B : Type} (c : result A) (k h : A -> result B) :
  (forall a, k a = h a) -> bind c k = bind c h.
Proof. intros E; destruct c; simpl; [apply E | reflexivity]. Qed.

(** Inversion of a chain of binds that returned a value. *)
Ltac inv_bind H :=
  repeat match type of H with
  | bind ?c ?k = Ok ?b =>
      let a := fresh "a" in
      let Ha := fresh "Ha" in
      apply bind_Ok_inv in H; destruct H as [a [Ha H]]
  end.

Module PyFacts.

Section MapM.

Context {A B : Type}.
Implicit Types (f g : A -> result B) (l : list A) (bs : list B).

Lemma mapM_Ok_iff f l bs :
  Py.mapM f l = Ok bs <-> Forall2 (fun a b => f a = Ok b) l bs.
Proof.
  revert bs; induction l as [| a l IH]; intros bs; simpl.
  - split; intros H.
    + injection H as <-; constructor.
    + inversion H; reflexivity.
  - split; intros H.
    + inv_bind H. injection H as <-.
      constructor; [assumption | apply IH; assumption].
    + inversion H as [| a' b l' bs' Hab Hrest]; subst.
      rewrite Hab; simpl.
      apply IH in Hrest; rewrite Hrest; reflexivity.
Qed.

Lemma mapM_length f l bs : Py.mapM f l = Ok bs -> length bs = length l.
Proof.
  intros H; apply mapM_Ok_iff in H.
  symmetry; exact (Forall2_length H).
Qed.

Lemma mapM_ext_in f g l :
  (forall a, In a l -> f a = g a) -> Py.mapM f l = Py.mapM g l.
Proof.
  induction l as [| a l IH]; intros E; simpl; [reflexivity |].
  rewrite (E a (or_introl eq_refl)), IH; [reflexivity |].
  intros a' Ha'; apply E; right; exact Ha'.
Qed.

Lemma mapM_ext f g l : (forall a, f a = g a) -> Py.mapM f l = Py.mapM g l.
Proof. intros E; apply mapM_ext_in; intros; apply E. Qed.

(** One failing element makes the whole comprehension fail. *)
Lemma mapM_In_Err f l a e :
  In a l -> f a = Err e -> exists e', Py.mapM f l = Err e'.
Proof.
  induction l as [| a0 l IH]; intros Hin Hfa; [destruct Hin |].
  simpl. destruct Hin as [-> | Hin].
  - rewrite Hfa; simpl; eauto.
  - destruct (f a0) as [b0 | e0]; simpl; [| eauto].
    destruct (IH Hin Hfa) as [e' ->]; simpl; eauto.
Qed.

(** A failing comprehension failed on one of its elements. *)
Lemma mapM_Err_inv f l e :
  Py.mapM f l = Err e -> exists a, In a l /\ f a = Err e.
Proof.
  induction l as [| a0 l IH]; simpl; [discriminate |].
  destruct (f a0) as [b0 | e0] eqn:E0; simpl.
  - destruct (Py.mapM f l); simpl; [discriminate |].
    intros H. destruct (IH H) as [a [Hin Ha]]. exists a; split; [right |]; assumption.
  - intros H; injection H as <-. exists a0; split; [left; reflexivity | exact E0].
Qed.

(** A loop that appends one computed value per element is a comprehension. *)
Lemma for_each_collect (body : list B -> A -> result (list B)) f :
  (forall acc a, body acc a = (b <- f a ;; Ok (acc ++ [b]))) ->
  forall l acc,
    Py.for_each body l acc = (bs <- Py.mapM f l ;; Ok (acc ++ bs)).
Proof.
  intros Hbody; induction l as [| a l IH]; intros acc; simpl.
  - rewrite app_nil_r; reflexivity.
  - rewrite Hbody. destruct (f a) as [b | e]; simpl; [| reflexivity].
    rewrite IH. destruct (Py.mapM f l) as [bs | e]; simpl; [| reflexivity].
    rewrite <- app_assoc; reflexivity.
Qed.

Lemma for_each_collect_nil (body : list B -> A -> result (list B)) f :
  (forall acc a, body acc a = (b <- f a ;; Ok (acc ++ [b]))) ->
  forall l, Py.for_each body l [] = Py.mapM f l.
Proof.
  intros Hbody l. rewrite (for_each_collect body f Hbody).
  destruct (Py.mapM f l); reflexivity.
Qed.

End MapM.

End PyFacts.

(** ** Arithmetic of true division *)

Lemma int_truediv_zero (a : Z) : Py.int_truediv a 0 = Err ZeroDivisionError.
Proof. reflexivity. Qed.

Lemma int_truediv_nonzero (a b : Z) :
  b <> 0%Z -> Py.int_truediv a b = Ok (Qred (inject_Z a / inject_Z b)).
Proof.
  intros Hb. unfold Py.int_truediv.
  destruct (Z.eqb_spec b 0) as [E | _]; [contradiction | reflexivity].
Qed.

Lemma int_truediv_Ok_inv (a b : Z) (p : Q) :
  Py.int_truediv a b = Ok p -> b <> 0%Z.
Proof. intros H ->. rewrite int_truediv_zero in H. discriminate H. Qed.

Lemma int_truediv_Err_inv (a b : Z) (e : exn) :
  Py.int_truediv a b = Err e -> e = ZeroDivisionError.
Proof.
  unfold Py.int_truediv. destruct (Z.eqb b 0); [| discriminate].
  intros H; injection H as <-; reflexivity.
Qed.

Lemma Qred_zero (q : Q) : q == 0 -> Qred q = 0%Q.
Proof. intros H. apply (Qred_complete q 0) in H. exact H. Qed.

Lemma int_truediv_zero_numerator (b : Z) :
  b <> 0%Z -> Py.int_truediv 0 b = Ok 0%Q.
Proof.
  intros Hb. rewrite (int_truediv_nonzero 0 b Hb). reflexivity.
Qed.

Lemma truediv_Ok_inv (ar : Arithmetic) (a b p : Q) :
  Py.truediv ar a b = Ok p -> ~ b == 0 /\ p = num_div ar a b.
Proof.
  unfold Py.truediv. destruct (Qeq_bool b 0) eqn:E; [discriminate |].
  intros H; injection H as <-. split; [| reflexivity].
  intros Hb. apply Qeq_eq_bool in Hb. congruence.
Qed.

Lemma truediv_zero (ar : Arithmetic) (a b : Q) :
  b == 0 -> Py.truediv ar a b = Err ZeroDivisionError.
Proof.
  intros Hb. unfold Py.truediv. rewrite (Qeq_eq_bool _ _ Hb). reflexivity.
Qed.

Lemma truediv_nonzero (ar : Arithmetic) (a b : Q) :
  ~ b == 0 -> Py.truediv ar a b = Ok (num_div ar a b).
Proof.
  intros Hb. unfold Py.truediv.
  destruct (Qeq_bool b 0) eqn:E; [| reflexivity].
  apply Qeq_bool_eq in E. contradiction.
Qed.

Lemma truediv_Err_inv (ar : Arithmetic) (a b : Q) (e : exn) :
  Py.truediv ar a b = Err e -> e = ZeroDivisionError.
Proof.
  unfold Py.truediv. destruct (Qeq_bool b 0); [| discriminate].
  intros H; injection H as <-; reflexivity.
Qed.

(** ** Shapes *)

Lemma shape_length {A : Type} (grid : list (list A)) : length (shape grid) = length grid.
Proof. apply length_map. Qed.

Lemma Forall2_shape {A B : Type} (R : A -> B -> Prop)
      (g1 : list (list A)) (g2 : list (list B)) :
  Forall2 (Forall2 R) g1 g2 -> shape g2 = shape g1.
Proof.
  induction 1 as [| r1 r2 g1 g2 Hr _ IH]; simpl; [reflexivity |].
  rewrite IH, (Forall2_length Hr); reflexivity.
Qed.

(** A comprehension over rows whose element has the length of its row keeps
    the shape; [proj] recovers the row from what the comprehension ranges
    over (the row itself, or an enumerated row). *)
Lemma mapM_rows_shape {I A B : Type} (F : I -> result (list B)) (proj : I -> list A)
      (l : list I) (out : list (list B)) :
  (forall i r, F i = Ok r -> length r = length (proj i)) ->
  Py.mapM F l = Ok out -> shape out = shape (map proj l).
Proof.
  intros HF H. apply PyFacts.mapM_Ok_iff in H.
  induction H as [| i r l out Hir _ IH]; simpl; [reflexivity |].
  rewrite IH, (HF _ _ Hir); reflexivity.
Qed.

Lemma enumerate_from_snd {A : Type} (l : list A) (i : Z) :
  map snd (Py.enumerate_from i l) = l.
Proof.
  revert i; induction l as [| a l IH]; intros i; simpl; [reflexivity |].
  rewrite IH; reflexivity.
Qed.

Lemma list_mul_len {A B : Type} (v : A) (row : list B) :
  Py.list_mul v (Py.len row) = repeat v (length row).
Proof. unfold Py.list_mul, Py.len. rewrite Nat2Z.id. reflexivity. Qed.

Lemma valid_densitiesb_sound (d : Densities) :
  valid_densitiesb d = true -> valid_densities d.
Proof.
  unfold valid_densitiesb, valid_densities. intros H.
  rewrite forallb_forall in H. apply Forall_forall. intros row Hrow.
  specialize (H row Hrow). apply andb_true_iff in H. destruct H as [Hne Htraces].
  split.
  - intros ->. discriminate Hne.
  - rewrite forallb_forall in Htraces. apply Forall_forall. intros trace Htrace.
    specialize (Htraces trace Htrace). intros ->. discriminate Htraces.
Qed.

(** ** The row-index strategy *)

Lemma row_index_shape (ctx : InterpolationContext) (ps : ColorscaleInterpolants) :
  _interpolate_row_index ctx = Ok ps -> shape ps = shape (densities ctx).
Proof.
  unfold _interpolate_row_index, Py.enumerate. intros H.
  rewrite <- (enumerate_from_snd (densities ctx) 0) at 1.
  revert H. apply mapM_rows_shape.
  intros [ith_row row] r Hr; simpl.
  inv_bind Hr. injection Hr as <-.
  rewrite list_mul_len. apply repeat_length.
Qed.

(** With a single row the divisor [n_rows - 1] is zero, and the first row
    already raises. *)
Lemma row_index_single_row (ctx : InterpolationContext) :
  n_rows ctx = 1%Z -> densities ctx <> [] ->
  _interpolate_row_index ctx = Err ZeroDivisionError.
Proof.
  intros Hn Hd. unfold _interpolate_row_index, Py.enumerate.
  destruct (densities ctx) as [| row rest]; [contradiction |].
  simpl. rewrite Hn. reflexivity.
Qed.

(** ** Index ranges *)

Lemma count_from_length (i : Z) (n : nat) : length (count_from i n) = n.
Proof. revert i; induction n as [| n IH]; intros i; simpl; [| rewrite IH]; reflexivity. Qed.

Lemma count_from_last (i : Z) (n : nat) (d : Z) :
  last (count_from i (S n)) d = (i + Z.of_nat n)%Z.
Proof.
  revert i; induction n as [| n IH]; intros i.
  - simpl. lia.
  - change (count_from i (S (S n))) with (i :: count_from (i + 1) (S n)).
    change (last (i :: count_from (i + 1) (S n)) d)
      with (last (count_from (i + 1) (S n)) d).
    rewrite IH. lia.
Qed.

Lemma map_seq_count_from (k n : nat) :
  map Z.of_nat (seq k n) = count_from (Z.of_nat k) n.
Proof.
  revert k; induction n as [| n IH]; intros k; simpl; [reflexivity |].
  rewrite IH. do 2 f_equal. lia.
Qed.

Lemma range_count_from (n : nat) : Py.range n = count_from 0 n.
Proof. exact (map_seq_count_from 0 n). Qed.

Lemma Forall2_last {A B : Type} (R : A -> B -> Prop) (l : list A) (bs : list B)
      (da : A) (db : B) :
  Forall2 R l bs -> l <> [] -> R (last l da) (last bs db).
Proof.
  induction 1 as [| a b l bs Hab Hrest IH]; intros Hne; [contradiction |].
  destruct Hrest as [| a' b' l bs Hab' Hrest]; [exact Hab |].
  apply IH. discriminate.
Qed.

Lemma mapM_total {A B : Type} (f : A -> result B) (l : list A) :
  (forall a, In a l -> exists b, f a = Ok b) -> exists bs, Py.mapM f l = Ok bs.
Proof.
  induction l as [| a l IH]; intros Hf; simpl; [eauto |].
  destruct (Hf a (or_introl eq_refl)) as [b ->].
  destruct IH as [bs ->]; [intros; apply Hf; right; assumption |].
  simpl; eauto.
Qed.

Lemma index_position_defined (n i : Z) :
  n <> 1%Z -> exists p, index_position n i = Ok p.
Proof.
  intros Hn. unfold index_position.
  rewrite int_truediv_nonzero by lia. eauto.
Qed.

Lemma index_position_last (n : Z) : n <> 1%Z -> index_position n (n - 1) = Ok 0%Q.
Proof.
  intros Hn. unfold index_position.
  replace (n - 1 - (n - 1))%Z with 0%Z by lia.
  apply int_truediv_zero_numerator. lia.
Qed.

(** ** The trace-index strategy: its loops as comprehensions *)

Lemma trace_index_inner_loop (n : Z) (row : list Trace) (acc : list Q) (i : Z) :
  Py.for_each
    (fun '(ps_row, ith_trace) (_ : Trace) =>
       p <- Py.int_truediv ((n - 1) - ith_trace) (n - 1) ;;
       Ok (ps_row ++ [p], (ith_trace + 1)%Z))
    row (acc, i)
  = (r <- Py.mapM (index_position n) (count_from i (length row)) ;;
     Ok (acc ++ r, (i + Py.len row)%Z)).
Proof.
  revert acc i; induction row as [| trace row IH]; intros acc i.
  - simpl. rewrite app_nil_r. do 2 f_equal. unfold Py.len; simpl; lia.
  - simpl. unfold index_position at 1.
    destruct (Py.int_truediv (n - 1 - i) (n - 1)) as [p | e]; simpl; [| reflexivity].
    rewrite IH.
    destruct (Py.mapM (index_position n) (count_from (i + 1) (length row)));
      simpl; [| reflexivity].
    rewrite <- app_assoc. do 2 f_equal. unfold Py.len; simpl length. lia.
Qed.

Lemma trace_index_outer_loop (n : Z) (rows : list (list Trace))
      (acc : list (list Q)) (i : Z) :
  (' (ps, _) <-
     Py.for_each
       (fun '(ps, ith_trace) (row : list Trace) =>
          ' (ps_row, ith_trace) <-
            Py.for_each
              (fun '(ps_row, ith_trace) (_ : Trace) =>
                 p <- Py.int_truediv ((n - 1) - ith_trace) (n - 1) ;;
                 Ok (ps_row ++ [p], (ith_trace + 1)%Z))
              row ([], ith_trace) ;;
          Ok (ps ++ [ps_row], ith_trace))
       rows (acc, i) ;;
   Ok ps)
  = (rs <- positions_by_global_index (index_position n) i rows ;; Ok (acc ++ rs)).
Proof.
  revert acc i; induction rows as [| row rows IH]; intros acc i.
  - simpl. rewrite app_nil_r. reflexivity.
  - simpl. rewrite trace_index_inner_loop.
    destruct (Py.mapM (index_position n) (count_from i (length row))) as [r | e];
      simpl; [| reflexivity].
    rewrite IH.
    destruct (positions_by_global_index (index_position n) (i + Py.len row) rows);
      simpl; [| reflexivity].
    rewrite <- app_assoc. reflexivity.
Qed.

Lemma trace_index_spec (ctx : InterpolationContext) :
  _interpolate_trace_index ctx
  = positions_by_global_index (index_position (n_traces ctx)) 0 (densities ctx).
Proof.
  unfold _interpolate_trace_index. rewrite trace_index_outer_loop.
  destruct (positions_by_global_index _ _ _); reflexivity.
Qed.

Lemma positions_by_global_index_shape (g : Z -> result Q) (rows : list (list Trace)) :
  forall i ps, positions_by_global_index g i rows = Ok ps -> shape ps = shape rows.
Proof.
  induction rows as [| row rows IH]; intros i ps H; simpl in H.
  - injection H as <-; reflexivity.
  - inv_bind H. injection H as <-. simpl.
    rewrite (IH _ _ Ha0), (PyFacts.mapM_length _ _ _ Ha), count_from_length.
    reflexivity.
Qed.

Lemma positions_by_global_index_shape_only (g : Z -> result Q)
      (rows1 rows2 : list (list Trace)) :
  shape rows1 = shape rows2 ->
  forall i, positions_by_global_index g i rows1 = positions_by_global_index g i rows2.
Proof.
  revert rows2; induction rows1 as [| row1 rows1 IH]; intros [| row2 rows2] Hs i;
    try discriminate Hs; [reflexivity |].
  simpl in Hs. injection Hs as Hlen Hs.
  simpl. unfold Py.len. rewrite Hlen, (IH rows2 Hs). reflexivity.
Qed.

Lemma trace_index_shape (ctx : InterpolationContext) (ps : ColorscaleInterpolants) :
  _interpolate_trace_index ctx = Ok ps -> shape ps = shape (densities ctx).
Proof. rewrite trace_index_spec. apply positions_by_global_index_shape. Qed.

(** ** The trace-index-row-wise strategy *)

Lemma row_wise_spec (ctx : InterpolationContext) :
  _interpolate_trace_index_row_wise ctx
  = Py.mapM
      (fun row : list Trace =>
         Py.mapM (index_position (Py.len row)) (count_from 0 (length row)))
      (densities ctx).
Proof.
  unfold _interpolate_trace_index_row_wise.
  apply PyFacts.mapM_ext. intros row. rewrite range_count_from. reflexivity.
Qed.

Lemma row_wise_shape (ctx : InterpolationContext) (ps : ColorscaleInterpolants) :
  _interpolate_trace_index_row_wise ctx = Ok ps -> shape ps = shape (densities ctx).
Proof.
  rewrite row_wise_spec. intros H.
  rewrite <- (map_id (densities ctx)) at 1.
  revert H. apply mapM_rows_shape.
  intros row r Hr. rewrite (PyFacts.mapM_length _ _ _ Hr). apply count_from_length.
Qed.

(** ** The weighted mean of a trace *)

Lemma combine_fst_snd {A B : Type} (l : list (A * B)) :
  combine (map fst l) (map snd l) = l.
Proof.
  induction l as [| [a b] l IH]; simpl; [| rewrite IH]; reflexivity.
Qed.

Lemma trace_mean_cons (ar : Arithmetic) (pt : Q * Q) (trace : Trace) :
  trace_mean ar (pt :: trace)
  = Py.truediv ar (first_moment ar (pt :: trace)) (total_mass ar (pt :: trace)).
Proof. reflexivity. Qed.

Lemma total_mass_nil (ar : Arithmetic) : total_mass ar [] = 0%Q.
Proof. reflexivity. Qed.

(** The mean the code computes is [Σ(x·y)/Σ(y)] in its arithmetic, and it
    is defined exactly when the mass is not zero. *)
Lemma trace_mean_Ok_iff (ar : Arithmetic) (trace : Trace) (m : Q) :
  trace_mean ar trace = Ok m
  <-> ~ total_mass ar trace == 0 /\ m = weighted_mean_x ar trace.
Proof.
  destruct trace as [| pt trace].
  - simpl. split; [discriminate |]. intros [H _]. exfalso; apply H; reflexivity.
  - rewrite trace_mean_cons. unfold weighted_mean_x. split.
    + intros H. apply truediv_Ok_inv in H. exact H.
    + intros [Hne ->]. apply truediv_nonzero. exact Hne.
Qed.

Lemma trace_mean_massless (ar : Arithmetic) (trace : Trace) :
  total_mass ar trace == 0 ->
  exists e, trace_mean ar trace = Err e /\ (trace <> [] -> e = ZeroDivisionError).
Proof.
  intros Hz. destruct trace as [| pt trace].
  - simpl. eexists; split; [reflexivity |]. intros H; contradiction.
  - rewrite trace_mean_cons, (truediv_zero ar _ _ Hz).
    eexists; split; reflexivity.
Qed.

(** On a trace with at least one point the only exception is the division
    by zero. *)
Lemma trace_mean_Err_inv (ar : Arithmetic) (trace : Trace) (e : exn) :
  trace <> [] -> trace_mean ar trace = Err e -> e = ZeroDivisionError.
Proof.
  destruct trace as [| pt trace]; [contradiction |]. intros _.
  rewrite trace_mean_cons. apply truediv_Err_inv.
Qed.

(** Without rounding the three numbers are the sums of the specification,
    whatever the order of the additions. *)
Lemma sum_masses (trace : Trace) (a : Q) :
  fold_left Qplus (map snd trace) a == a + exact_total_mass trace.
Proof.
  revert a; induction trace as [| [x y] trace IH]; intros a; simpl.
  - ring.
  - rewrite IH. ring.
Qed.

Lemma sum_moments (trace : Trace) (a : Q) :
  fold_left Qplus (_mul exact_arith (map fst trace) (map snd trace)) a
  == a + exact_first_moment trace.
Proof.
  unfold _mul. rewrite combine_fst_snd.
  revert a; induction trace as [| [x y] trace IH]; intros a; simpl.
  - ring.
  - rewrite IH. ring.
Qed.

Lemma exact_arith_sums (trace : Trace) :
  total_mass exact_arith trace == exact_total_mass trace
  /\ first_moment exact_arith trace == exact_first_moment trace
  /\ weighted_mean_x exact_arith trace = exact_weighted_mean_x trace.
Proof.
  assert (Hm : total_mass exact_arith trace == exact_total_mass trace).
  { unfold total_mass, Py.sum. simpl num_add. rewrite sum_masses. ring. }
  assert (Hf : first_moment exact_arith trace == exact_first_moment trace).
  { unfold first_moment, Py.sum. simpl num_add. rewrite sum_moments. ring. }
  split; [exact Hm |]. split; [exact Hf |].
  unfold weighted_mean_x, exact_weighted_mean_x.
  change (num_div exact_arith) with (fun a b => Qred (a / b)). cbv beta.
  apply Qred_complete. rewrite Hm, Hf. reflexivity.
Qed.

(** ** Least and greatest elements *)










Lemma Forall2_In_r {A B : Type} (R : A -> B -> Prop) (l : list A) (l' : list B) (b : B) :
  Forall2 R l l' -> In b l' -> exists a, In a l /\ R a b.
Proof.
  induction 1 as [| a0 b0 l l' Hab _ IH]; intros Hin; [destruct Hin |].
  destruct Hin as [<- | Hin].
  - exists a0; split; [left; reflexivity | exact Hab].
  - destruct (IH Hin) as [a [Ha HR]]. exists a; split; [right; exact Ha | exact HR].
Qed.




Lemma mapM2_Ok_iff {A B : Type} (f : A -> result B) (grid : list (list A))
      (out : list (list B)) :
  Py.mapM (Py.mapM f) grid = Ok out
  <-> Forall2 (Forall2 (fun a b => f a = Ok b)) grid out.
Proof.
  rewrite PyFacts.mapM_Ok_iff. split; intros H.
  - eapply Forall2_impl; [| exact H]. intros row r Hr. apply PyFacts.mapM_Ok_iff, Hr.
  - eapply Forall2_impl; [| exact H]. intros row r Hr. apply PyFacts.mapM_Ok_iff, Hr.
Qed.

Lemma mapM2_shape {A B : Type} (f : A -> result B) (grid : list (list A))
      (out : list (list B)) :
  Py.mapM (Py.mapM f) grid = Ok out -> shape out = shape grid.
Proof. intros H. apply mapM2_Ok_iff in H. exact (Forall2_shape _ _ _ H). Qed.

(** One failing cell makes the whole grid comprehension fail. *)
Lemma mapM2_In_Err {A B : Type} (f : A -> result B) (grid : list (list A))
      (row : list A) (a : A) (e : exn) :
  In row grid -> In a row -> f a = Err e ->
  exists e', Py.mapM (Py.mapM f) grid = Err e'.
Proof.
  intros Hrow Ha Hfa.
  destruct (PyFacts.mapM_In_Err f row a e Ha Hfa) as [e1 He1].
  exact (PyFacts.mapM_In_Err (Py.mapM f) grid row e1 Hrow He1).
Qed.

(** ** The mean-based strategies: their loops as comprehensions *)

Section MeanStrategies.

Variable ar : Arithmetic.
Variable normalise_min_max : Q -> Q -> Q -> result Q.

Lemma mean_minmax_spec (ctx : InterpolationContext) :
  _interpolate_mean_minmax ar normalise_min_max ctx
  = Py.mapM
      (Py.mapM (fun trace =>
                  mean <- trace_mean ar trace ;;
                  normalise_min_max mean (x_min ctx) (x_max ctx)))
      (densities ctx).
Proof.
  unfold _interpolate_mean_minmax.
  rewrite (PyFacts.for_each_collect_nil _
             (fun row : list Trace =>
                Py.for_each
                  (fun ps_row (trace : Trace) =>
                     ' (x, y) <- Py.unzip2 trace ;;
                     mean <- Py.truediv ar (Py.sum ar (_mul ar x y)) (Py.sum ar y) ;;
                     p <- normalise_min_max mean (x_min ctx) (x_max ctx) ;;
                     Ok (ps_row ++ [p]))
                  row []))
    by reflexivity.
  apply PyFacts.mapM_ext. intros row.
  apply PyFacts.for_each_collect_nil.
  intros acc trace. unfold trace_mean.
  destruct (Py.unzip2 trace) as [[x y] | e]; simpl; [| reflexivity].
  destruct (Py.truediv ar (Py.sum ar (_mul ar x y)) (Py.sum ar y)); reflexivity.
Qed.

Lemma mean_means_first_pass (rows : list (list Trace)) :
  Py.for_each
    (fun means (row : list Trace) =>
       means_row <-
         Py.for_each
           (fun means_row (trace : Trace) =>
              ' (x, y) <- Py.unzip2 trace ;;
              mean <- Py.truediv ar (Py.sum ar (_mul ar x y)) (Py.sum ar y) ;;
              Ok (means_row ++ [mean]))
           row [] ;;
       Ok (means ++ [means_row]))
    rows []
  = Py.mapM (Py.mapM (trace_mean ar)) rows.
Proof.
  rewrite (PyFacts.for_each_collect_nil _
             (fun row : list Trace =>
                Py.for_each
                  (fun means_row (trace : Trace) =>
                     ' (x, y) <- Py.unzip2 trace ;;
                     mean <- Py.truediv ar (Py.sum ar (_mul ar x y)) (Py.sum ar y) ;;
                     Ok (means_row ++ [mean]))
                  row []))
    by reflexivity.
  apply PyFacts.mapM_ext. intros row.
  apply PyFacts.for_each_collect_nil.
  intros acc trace. unfold trace_mean.
  destruct (Py.unzip2 trace) as [[x y] | e]; reflexivity.
Qed.

Lemma mean_means_spec (ctx : InterpolationContext) :
  _interpolate_mean_means ar normalise_min_max ctx
  = (means <- Py.mapM (Py.mapM (trace_mean ar)) (densities ctx) ;;
     row_mins <- Py.mapM Py.min means ;;
     min_mean <- Py.min row_mins ;;
     row_maxs <- Py.mapM Py.max means ;;
     max_mean <- Py.max row_maxs ;;
     Py.mapM (Py.mapM (fun mean => normalise_min_max mean min_mean max_mean)) means).
Proof.
  unfold _interpolate_mean_means. rewrite mean_means_first_pass. reflexivity.
Qed.

Lemma mean_minmax_shape (ctx : InterpolationContext) (ps : ColorscaleInterpolants) :
  _interpolate_mean_minmax ar normalise_min_max ctx = Ok ps ->
  shape ps = shape (densities ctx).
Proof. rewrite mean_minmax_spec. apply mapM2_shape. Qed.

Lemma mean_means_shape (ctx : InterpolationContext) (ps : ColorscaleInterpolants) :
  _interpolate_mean_means ar normalise_min_max ctx = Ok ps ->
  shape ps = shape (densities ctx).
Proof.
  rewrite mean_means_spec. intros H. inv_bind H.
  apply mapM2_shape in H. apply mapM2_shape in Ha. congruence.
Qed.

End MeanStrategies.

(** ** The strategies and the orchestration *)

Section Claims.

Variable get_xy_extrema : Densities -> result (Q * Q * Q * Q).
Variable ar : Arithmetic.
Variable normalise_min_max : Q -> Q -> Q -> result Q.
Variables ColorScaleArg ColorScale Color : Type.
Variable normalise_colorscale : ColorScaleArg -> result ColorScale.
Variable interpolate_color : ColorScale -> Q -> result Color.
Variable apply_alpha : Color -> Q -> result Color.

#[local] Abbreviation COLORMODES := (COLORMODE_MAPS ar normalise_min_max).
#[local] Abbreviation mean_minmax := (_interpolate_mean_minmax ar normalise_min_max).
#[local] Abbreviation mean_means := (_interpolate_mean_means ar normalise_min_max).
#[local] Abbreviation trace_colors :=
  (compute_trace_colors ar normalise_min_max normalise_colorscale
                        interpolate_color apply_alpha).
#[local] Abbreviation get_color := (_get_color interpolate_color apply_alpha).
#[local] Abbreviation context_of := (from_densities get_xy_extrema).

Lemma from_densities_inv (d : Densities) (ctx : InterpolationContext) :
  context_of d = Ok ctx ->
  densities ctx = d
  /\ n_rows ctx = Py.len d
  /\ n_traces ctx = Py.sum_int (map (fun row => Py.len row) d)
  /\ exists y_min y_max, get_xy_extrema d = Ok (x_min ctx, x_max ctx, y_min, y_max).
Proof.
  unfold from_densities. intros H. inv_bind H.
  destruct a as [[[xmin xmax] ymin] ymax].
  injection H as <-. simpl. repeat split. eauto.
Qed.

Lemma colormode_lookup_inv (colormode : string) (f : InterpolationFunc) :
  Py.lookup colormode COLORMODES = Some f ->
  (colormode = "row-index"%string /\ f = _interpolate_row_index)
  \/ (colormode = "trace-index"%string /\ f = _interpolate_trace_index)
  \/ (colormode = "trace-index-row-wise"%string
      /\ f = _interpolate_trace_index_row_wise)
  \/ (colormode = "mean-minmax"%string /\ f = mean_minmax)
  \/ (colormode = "mean-means"%string /\ f = mean_means).
Proof.
  unfold COLORMODE_MAPS, Py.lookup.
  repeat match goal with
  | |- (if String.eqb ?a ?b then _ else _) = _ -> _ =>
      destruct (String.eqb_spec a b) as [-> | _];
      [intros H; injection H as <-; tauto |]
  end.
  discriminate.
Qed.

Lemma lookup_None_iff {V : Type} (key : string) (d : list (string * V)) :
  Py.lookup key d = None <-> ~ In key (Py.keys d).
Proof.
  induction d as [| [k v] d IH]; simpl.
  - tauto.
  - destruct (String.eqb_spec key k) as [-> | Hne].
    + split; [discriminate | intros H; exfalso; apply H; left; reflexivity].
    + rewrite IH. split.
      * intros H [Hk | Hin]; [congruence | contradiction].
      * intros H Hin. apply H. right. exact Hin.
Qed.

(** Every strategy of the table returns a grid shaped like the densities. *)
Lemma strategy_shape (colormode : string) (f : InterpolationFunc)
      (ctx : InterpolationContext) (ps : ColorscaleInterpolants) :
  Py.lookup colormode COLORMODES = Some f -> f ctx = Ok ps ->
  shape ps = shape (densities ctx).
Proof.
  intros Hf Hps. apply colormode_lookup_inv in Hf.
  destruct Hf as [[_ ->] | [[_ ->] | [[_ ->] | [[_ ->] | [_ ->]]]]].
  - apply row_index_shape, Hps.
  - apply trace_index_shape, Hps.
  - apply row_wise_shape, Hps.
  - apply (mean_minmax_shape ar normalise_min_max), Hps.
  - apply (mean_means_shape ar normalise_min_max), Hps.
Qed.

(** C1. For a valid densities grid and a recognised colormode whose strategy
    returns a grid of interpolants, whatever [compute_trace_colors] returns
    has the shape of the densities grid (as many rows, and in every row as
    many colours as the row has traces); and it does return such a grid as
    soon as the colour scale normalises and every interpolant is mapped to a
    colour. *)
Theorem C1_compute_trace_colors_shape
  (colorscale : ColorScaleArg) (colormode : string) (coloralpha : option Q)
  (ctx : InterpolationContext) (f : InterpolationFunc)
  (interpolants : ColorscaleInterpolants) :
  valid_densities (densities ctx) ->
  Py.lookup colormode COLORMODES = Some f ->
  f ctx = Ok interpolants ->
  (forall colors,
      trace_colors colorscale colormode coloralpha ctx = Ok colors ->
      shape colors = shape (densities ctx))
  /\ (forall cs,
         normalise_colorscale colorscale = Ok cs ->
         (forall p, In p (concat interpolants) ->
                    exists c, get_color cs (option_map Py.float coloralpha) p = Ok c) ->
         exists colors,
           trace_colors colorscale colormode coloralpha ctx = Ok colors
           /\ shape colors = shape (densities ctx)).
Proof.
  intros _ Hf Hps.
  assert (Hshape : forall colors,
             trace_colors colorscale colormode coloralpha ctx = Ok colors ->
             shape colors = shape (densities ctx)).
  { intros colors H. unfold compute_trace_colors in H.
    inv_bind H. rewrite Hf, Hps in H. simpl in H.
    apply mapM2_shape in H. rewrite H.
    exact (strategy_shape _ _ _ _ Hf Hps). }
  split; [exact Hshape |].
  intros cs Hcs Hcolors.
  assert (Hall : exists colors,
             Py.mapM (Py.mapM (get_color cs (option_map Py.float coloralpha)))
                     interpolants = Ok colors).
  { apply mapM_total. intros row Hrow. apply mapM_total. intros p Hp.
    apply Hcolors. apply in_concat. exists row; tauto. }
  destruct Hall as [colors Hall].
  assert (Hrun : trace_colors colorscale colormode coloralpha ctx = Ok colors).
  { unfold compute_trace_colors. rewrite Hcs. cbn [bind]. rewrite Hf, Hps.
    exact Hall. }
  exists colors. split; [exact Hrun | exact (Hshape _ Hrun)].
Qed.

(** C2 (amended).  For a densities grid with exactly one row the row-index
    strategy has no special case: the divisor [n_rows - 1] is zero, the
    strategy raises the division-by-zero error, and [compute_trace_colors]
    returns no colours (the error is the division by zero whenever the
    colour scale normalises). *)
Theorem C2_row_index_single_row_raises
  (row : list Trace) (ctx : InterpolationContext) :
  context_of [row] = Ok ctx ->
  _interpolate_row_index ctx = Err ZeroDivisionError
  /\ (forall colorscale coloralpha,
         exists e,
           trace_colors colorscale "row-index"%string coloralpha ctx = Err e)
  /\ (forall colorscale coloralpha cs,
         normalise_colorscale colorscale = Ok cs ->
         trace_colors colorscale "row-index"%string coloralpha ctx
         = Err ZeroDivisionError).
Proof.
  intros Hctx. apply from_densities_inv in Hctx.
  destruct Hctx as [Hd [Hn _]].
  assert (Hraise : _interpolate_row_index ctx = Err ZeroDivisionError).
  { apply row_index_single_row; [exact Hn | rewrite Hd; discriminate]. }
  assert (Hrun : forall colorscale coloralpha cs,
             normalise_colorscale colorscale = Ok cs ->
             trace_colors colorscale "row-index"%string coloralpha ctx
             = Err ZeroDivisionError).
  { intros colorscale coloralpha cs Hcs. unfold compute_trace_colors.
    rewrite Hcs. cbn [bind].
    change (Py.lookup "row-index"%string COLORMODES)
      with (Some _interpolate_row_index).
    cbv beta iota zeta. rewrite Hraise. reflexivity. }
  split; [exact Hraise |]. split; [| exact Hrun].
  intros colorscale coloralpha.
  destruct (normalise_colorscale colorscale) as [cs | e] eqn:Hcs.
  - exists ZeroDivisionError. exact (Hrun _ _ _ Hcs).
  - exists e. unfold compute_trace_colors. rewrite Hcs. reflexivity.
Qed.

Lemma string_app_assoc (a b c : string) :
  ((a ++ b) ++ c)%string = (a ++ (b ++ c))%string.
Proof. induction a as [| ch a IH]; simpl; [| rewrite IH]; reflexivity. Qed.

Lemma string_app_nil_r (a : string) : (a ++ "")%string = a.
Proof. induction a as [| ch a IH]; simpl; [| rewrite IH]; reflexivity. Qed.

Lemma occurs_in_refl (s : string) : occurs_in s s.
Proof. exists ""%string, ""%string. simpl. rewrite string_app_nil_r. reflexivity. Qed.

Lemma occurs_in_app_l (name pre msg : string) :
  occurs_in name msg -> occurs_in name (pre ++ msg)%string.
Proof.
  intros [a [b ->]]. exists (pre ++ a)%string, b.
  rewrite string_app_assoc. reflexivity.
Qed.

Lemma occurs_in_app_r (name msg post : string) :
  occurs_in name msg -> occurs_in name (msg ++ post)%string.
Proof.
  intros [a [b ->]]. exists a, (b ++ post)%string.
  rewrite !string_app_assoc. reflexivity.
Qed.

Lemma occurs_in_concat (sep s : string) (l : list string) :
  In s l -> occurs_in s (String.concat sep l).
Proof.
  induction l as [| x l IH]; intros Hin; [destruct Hin |].
  destruct l as [| y l].
  - destruct Hin as [-> | []]. apply occurs_in_refl.
  - change (String.concat sep (x :: y :: l))
      with (x ++ sep ++ String.concat sep (y :: l))%string.
    destruct Hin as [-> | Hin].
    + apply occurs_in_app_r, occurs_in_refl.
    + do 2 apply occurs_in_app_l. apply IH, Hin.
Qed.

(** The [repr] of a tuple of names shows every name, quoted. *)
Lemma repr_tuple_enumerates (l : list string) (name : string) :
  In name l -> occurs_in (Py.repr_str name) (Py.repr_tuple l).
Proof.
  intros Hin. unfold Py.repr_tuple.
  destruct l as [| x [| y l]].
  - destruct Hin.
  - destruct Hin as [-> | []].
    apply occurs_in_app_l, occurs_in_app_r, occurs_in_refl.
  - apply occurs_in_app_l, occurs_in_app_r, occurs_in_concat.
    apply in_map, Hin.
Qed.

(** C3 (amended).  With a colormode that is not one of the five recognised
    names, [compute_trace_colors] fails with the invalid-input error whose
    message enumerates the valid options, provided the colour scale
    normalises: the colour scale is normalised first, so an invalid colour
    scale is what gets reported, whatever the colormode. *)
Theorem C3_unknown_colormode_after_colorscale
  (colorscale : ColorScaleArg) (colormode : string) (coloralpha : option Q)
  (ctx : InterpolationContext) :
  ~ In colormode (Py.keys COLORMODES) ->
  (forall cs,
      normalise_colorscale colorscale = Ok cs ->
      trace_colors colorscale colormode coloralpha ctx
      = Err (ValueError (colormode_error_message ar normalise_min_max colormode)))
  /\ (forall e,
         normalise_colorscale colorscale = Err e ->
         trace_colors colorscale colormode coloralpha ctx = Err e)
  /\ (forall name,
         In name (Py.keys COLORMODES) ->
         occurs_in (Py.repr_str name)
                   (colormode_error_message ar normalise_min_max colormode)).
Proof.
  intros Hunknown. apply lookup_None_iff in Hunknown.
  split; [| split].
  - intros cs Hcs. unfold compute_trace_colors.
    rewrite Hcs. cbn [bind]. rewrite Hunknown. reflexivity.
  - intros e He. unfold compute_trace_colors. rewrite He. reflexivity.
  - intros name Hname. unfold colormode_error_message.
    apply occurs_in_app_l, occurs_in_app_r, repr_tuple_enumerates, Hname.
Qed.

(** C7.  For three rows of one trace each, the trace-index strategy gives
    the traces of global index 0, 1 and 2 the positions 1.0, 0.5 and 0.0. *)
Theorem C7_trace_index_three_single_rows
  (t1 t2 t3 : Trace) (ctx : InterpolationContext) :
  context_of [[t1]; [t2]; [t3]] = Ok ctx ->
  _interpolate_trace_index ctx = Ok [[1]; [1 # 2]; [0]].
Proof.
  intros Hctx. apply from_densities_inv in Hctx.
  destruct Hctx as [Hd [_ [Hn _]]].
  unfold _interpolate_trace_index. rewrite Hd, Hn. reflexivity.
Qed.

Lemma Forall2_grid_impl {A B : Type} (R1 R2 : A -> B -> Prop)
      (g1 : list (list A)) (g2 : list (list B)) :
  (forall a b, R1 a b -> R2 a b) ->
  Forall2 (Forall2 R1) g1 g2 -> Forall2 (Forall2 R2) g1 g2.
Proof.
  intros Himp H. eapply Forall2_impl; [| exact H].
  intros r1 r2 Hr. eapply Forall2_impl; [| exact Hr]. exact Himp.
Qed.

Lemma mapM2_Err_inv {A B : Type} (f : A -> result B) (grid : list (list A)) (e : exn) :
  Py.mapM (Py.mapM f) grid = Err e ->
  exists row a, In row grid /\ In a row /\ f a = Err e.
Proof.
  intros H. apply PyFacts.mapM_Err_inv in H. destruct H as [row [Hrow H]].
  apply PyFacts.mapM_Err_inv in H. destruct H as [a [Ha H]].
  exists row, a. auto.
Qed.





Lemma lookup_mean_minmax :
  Py.lookup "mean-minmax"%string COLORMODES = Some mean_minmax.
Proof. reflexivity. Qed.

Lemma lookup_mean_means :
  Py.lookup "mean-means"%string COLORMODES = Some mean_means.
Proof. reflexivity. Qed.

(** A strategy that raises leaves [compute_trace_colors] without colours. *)
Lemma trace_colors_strategy_raises
      (colorscale : ColorScaleArg) (colormode : string) (coloralpha : option Q)
      (ctx : InterpolationContext) (f : InterpolationFunc) (e : exn) :
  Py.lookup colormode COLORMODES = Some f -> f ctx = Err e ->
  exists e', trace_colors colorscale colormode coloralpha ctx = Err e'
             /\ (forall cs, normalise_colorscale colorscale = Ok cs -> e' = e).
Proof.
  intros Hf He. unfold compute_trace_colors.
  destruct (normalise_colorscale colorscale) as [cs | e0]; cbn [bind].
  - rewrite Hf, He. exists e. split; [reflexivity |]. reflexivity.
  - exists e0. split; [reflexivity |]. discriminate.
Qed.

(** C6 (amended).  A trace whose total y-mass is zero is not given a value
    by the mean-based colormodes: both strategies raise, the division
    [Σ(x·y)/Σ(y)] being by zero (for mean-means on a valid grid the error is
    exactly the division-by-zero error), and [compute_trace_colors] returns
    no colours. *)
Theorem C6_massless_trace_raises
  (ctx : InterpolationContext) (row : list Trace) (trace : Trace) :
  In row (densities ctx) -> In trace row -> total_mass ar trace == 0 ->
  (exists e, mean_minmax ctx = Err e)
  /\ (exists e, mean_means ctx = Err e)
  /\ (valid_densities (densities ctx) -> mean_means ctx = Err ZeroDivisionError)
  /\ (forall colorscale colormode coloralpha,
         colormode = "mean-minmax"%string \/ colormode = "mean-means"%string ->
         exists e, trace_colors colorscale colormode coloralpha ctx = Err e).
Proof.
  intros Hrow Htrace Hz.
  destruct (trace_mean_massless ar trace Hz) as [e [He _]].
  assert (Hminmax : exists e, mean_minmax ctx = Err e).
  { rewrite mean_minmax_spec.
    apply (mapM2_In_Err _ _ row trace e Hrow Htrace).
    rewrite He. reflexivity. }
  assert (Hmeans : exists e, mean_means ctx = Err e).
  { destruct (mapM2_In_Err (trace_mean ar) _ _ _ _ Hrow Htrace He) as [e' He'].
    exists e'. rewrite mean_means_spec, He'. reflexivity. }
  split; [exact Hminmax |]. split; [exact Hmeans |]. split.
  - intros Hvalid.
    destruct (mapM2_In_Err (trace_mean ar) _ _ _ _ Hrow Htrace He) as [e' He'].
    rewrite mean_means_spec, He'. cbn [bind]. apply f_equal.
    apply mapM2_Err_inv in He'. destruct He' as [row' [trace' [Hrow' [Htrace' He']]]].
    apply (trace_mean_Err_inv ar trace'); [| exact He'].
    unfold valid_densities in Hvalid. rewrite Forall_forall in Hvalid.
    destruct (Hvalid row' Hrow') as [_ Htraces].
    rewrite Forall_forall in Htraces. exact (Htraces trace' Htrace').
  - intros colorscale colormode coloralpha [-> | ->].
    + destruct Hminmax as [e1 H1].
      destruct (trace_colors_strategy_raises colorscale _ coloralpha ctx _ e1
                  lookup_mean_minmax H1) as [e' [He' _]].
      eauto.
    + destruct Hmeans as [e1 H1].
      destruct (trace_colors_strategy_raises colorscale _ coloralpha ctx _ e1
                  lookup_mean_means H1) as [e' [He' _]].
      eauto.
Qed.

(** The positions of one row under the row-wise strategy. *)
Lemma row_wise_row_last (row : list Trace) (r : list Q) :
  Py.mapM (index_position (Py.len row)) (count_from 0 (length row)) = Ok r ->
  length r = length row /\ (row <> [] -> last r 1 = 0%Q).
Proof.
  intros H. split.
  - rewrite (PyFacts.mapM_length _ _ _ H). apply count_from_length.
  - intros Hne. destruct row as [| trace row]; [contradiction |].
    set (n := Py.len (trace :: row)) in *.
    assert (Hn : n <> 1%Z).
    { simpl in H. inv_bind H. unfold index_position in Ha.
      apply int_truediv_Ok_inv in Ha. lia. }
    apply PyFacts.mapM_Ok_iff in H.
    pose proof (Forall2_last _ _ _ 0%Z 1%Q H) as Hlast.
    simpl length in Hlast. rewrite count_from_last in Hlast.
    assert (Hidx : (0 + Z.of_nat (length row))%Z = (n - 1)%Z).
    { unfold n, Py.len. simpl length. lia. }
    rewrite Hidx, (index_position_last n Hn) in Hlast.
    assert (Hok : Ok 0%Q = Ok (last r 1%Q)) by (apply Hlast; discriminate).
    injection Hok as <-. reflexivity.
Qed.

Lemma row_wise_row_defined (row : list Trace) :
  length row <> 1%nat ->
  exists r, Py.mapM (index_position (Py.len row)) (count_from 0 (length row)) = Ok r.
Proof.
  intros Hlen. apply mapM_total. intros i _.
  apply index_position_defined. unfold Py.len. lia.
Qed.

(** A row with exactly one trace divides by [len(row) - 1 = 0]. *)
Lemma row_wise_single_trace_row_raises (ctx : InterpolationContext) (row : list Trace) :
  In row (densities ctx) -> length row = 1%nat ->
  _interpolate_trace_index_row_wise ctx = Err ZeroDivisionError.
Proof.
  intros Hrow Hlen. rewrite row_wise_spec.
  assert (Hraise : Py.mapM (index_position (Py.len row)) (count_from 0 (length row))
                   = Err ZeroDivisionError).
  { unfold Py.len. rewrite Hlen. reflexivity. }
  destruct (PyFacts.mapM_In_Err
              (fun row : list Trace =>
                 Py.mapM (index_position (Py.len row)) (count_from 0 (length row)))
              _ _ _ Hrow Hraise) as [e He].
  rewrite He. apply f_equal.
  apply PyFacts.mapM_Err_inv in He. destruct He as [row' [_ He]].
  apply PyFacts.mapM_Err_inv in He. destruct He as [i [_ He]].
  unfold index_position in He.
  exact (int_truediv_Err_inv _ _ _ He).
Qed.

(** C8 (amended).  In a grid in which no row has exactly one trace, the
    trace-index-row-wise strategy returns a grid of positions, and in it the
    last trace of every row is at position 0, whatever the other rows
    contain. *)
Theorem C8_row_wise_last_trace_at_zero (ctx : InterpolationContext) :
  Forall (fun row : list Trace => length row <> 1%nat) (densities ctx) ->
  exists ps,
    _interpolate_trace_index_row_wise ctx = Ok ps
    /\ Forall2
         (fun (row : list Trace) ps_row =>
            length ps_row = length row /\ (row <> [] -> last ps_row 1 = 0%Q))
         (densities ctx) ps.
Proof.
  intros Hrows. rewrite row_wise_spec.
  destruct (mapM_total
              (fun row : list Trace =>
                 Py.mapM (index_position (Py.len row)) (count_from 0 (length row)))
              (densities ctx)) as [ps Hps].
  - intros row Hrow. apply row_wise_row_defined.
    rewrite Forall_forall in Hrows. exact (Hrows row Hrow).
  - exists ps. split; [exact Hps |].
    apply PyFacts.mapM_Ok_iff in Hps.
    eapply Forall2_impl; [| exact Hps].
    intros row r Hr. apply row_wise_row_last, Hr.
Qed.

(** ** Dependence on the shape only *)

Lemma len_shape {A : Type} (grid : list (list A)) :
  Py.len grid = Z.of_nat (length (shape grid)).
Proof. unfold Py.len. rewrite shape_length. reflexivity. Qed.

Lemma map_len_shape {A : Type} (grid : list (list A)) :
  map (fun row => Py.len row) grid = map Z.of_nat (shape grid).
Proof. unfold shape. rewrite map_map. reflexivity. Qed.

Lemma row_index_rows_shape_only (n : Z) (d1 d2 : Densities) :
  shape d1 = shape d2 ->
  forall i,
    Py.mapM
      (fun '(ith_row, row) =>
         p <- Py.int_truediv ((n - 1) - ith_row) (n - 1) ;;
         Ok (Py.list_mul p (Py.len (A := Trace) row)))
      (Py.enumerate_from i d1)
    = Py.mapM
        (fun '(ith_row, row) =>
           p <- Py.int_truediv ((n - 1) - ith_row) (n - 1) ;;
           Ok (Py.list_mul p (Py.len (A := Trace) row)))
        (Py.enumerate_from i d2).
Proof.
  revert d2; induction d1 as [| row1 d1 IH]; intros [| row2 d2] Hs i;
    try discriminate Hs; [reflexivity |].
  simpl in Hs. injection Hs as Hlen Hs.
  simpl. unfold Py.len. rewrite Hlen, (IH d2 Hs). reflexivity.
Qed.

Lemma row_wise_rows_shape_only (d1 d2 : Densities) :
  shape d1 = shape d2 ->
  Py.mapM
    (fun row : list Trace =>
       Py.mapM (index_position (Py.len row)) (count_from 0 (length row))) d1
  = Py.mapM
      (fun row : list Trace =>
         Py.mapM (index_position (Py.len row)) (count_from 0 (length row))) d2.
Proof.
  revert d2; induction d1 as [| row1 d1 IH]; intros [| row2 d2] Hs;
    try discriminate Hs; [reflexivity |].
  simpl in Hs. injection Hs as Hlen Hs.
  cbn [Py.mapM]. rewrite (IH d2 Hs). unfold Py.len. rewrite Hlen. reflexivity.
Qed.

Lemma index_strategies_shape_only (c1 c2 : InterpolationContext) :
  shape (densities c1) = shape (densities c2) ->
  n_rows c1 = n_rows c2 -> n_traces c1 = n_traces c2 ->
  _interpolate_row_index c1 = _interpolate_row_index c2
  /\ _interpolate_trace_index c1 = _interpolate_trace_index c2
  /\ _interpolate_trace_index_row_wise c1 = _interpolate_trace_index_row_wise c2.
Proof.
  intros Hs Hrows Htraces. split; [| split].
  - unfold _interpolate_row_index, Py.enumerate. rewrite Hrows.
    apply row_index_rows_shape_only, Hs.
  - rewrite !trace_index_spec, Htraces.
    apply positions_by_global_index_shape_only, Hs.
  - rewrite !row_wise_spec. apply row_wise_rows_shape_only, Hs.
Qed.

(** C9.  The three index-based strategies depend on the shape of the grid
    only: on two densities grids with the same number of rows and the same
    number of traces in every row, each of them gives the same result,
    whatever the points of the traces. *)
Theorem C9_index_strategies_depend_on_shape_only
  (d1 d2 : Densities) (c1 c2 : InterpolationContext) :
  context_of d1 = Ok c1 -> context_of d2 = Ok c2 ->
  shape d1 = shape d2 ->
  _interpolate_row_index c1 = _interpolate_row_index c2
  /\ _interpolate_trace_index c1 = _interpolate_trace_index c2
  /\ _interpolate_trace_index_row_wise c1 = _interpolate_trace_index_row_wise c2.
Proof.
  intros H1 H2 Hs.
  apply from_densities_inv in H1. destruct H1 as [Hd1 [Hr1 [Ht1 _]]].
  apply from_densities_inv in H2. destruct H2 as [Hd2 [Hr2 [Ht2 _]]].
  apply index_strategies_shape_only.
  - rewrite Hd1, Hd2. exact Hs.
  - rewrite Hr1, Hr2, !len_shape, Hs. reflexivity.
  - rewrite Ht1, Ht2, !map_len_shape, Hs. reflexivity.
Qed.

(** ** One trace per row *)

Lemma sum_int_single_rows (d : Densities) :
  Forall (fun row => length row = 1%nat) d ->
  forall a, fold_left Z.add (map (fun row => Py.len row) d) a = (a + Py.len d)%Z.
Proof.
  induction 1 as [| row d Hrow _ IH]; intros a; simpl.
  - unfold Py.len; simpl. lia.
  - rewrite IH. unfold Py.len. rewrite Hrow. simpl length. lia.
Qed.

Lemma positions_single_rows (g : Z -> result Q) (rows : list (list Trace)) :
  Forall (fun row => length row = 1%nat) rows ->
  forall i,
    positions_by_global_index g i rows
    = Py.mapM
        (fun '(k, row) => p <- g k ;; Ok (Py.list_mul p (Py.len (A := Trace) row)))
        (Py.enumerate_from i rows).
Proof.
  induction 1 as [| row rows Hrow _ IH]; intros i; simpl; [reflexivity |].
  unfold Py.len at 1 2. rewrite Hrow. simpl.
  destruct (g i) as [p | e]; simpl; [| reflexivity].
  rewrite IH. reflexivity.
Qed.

(** C10.  On a grid of at least two rows with exactly one trace in every
    row, the row-index and the trace-index strategies return the same grid
    of positions. *)
Theorem C10_row_index_is_trace_index_on_single_trace_rows
  (d : Densities) (ctx : InterpolationContext) :
  context_of d = Ok ctx ->
  Forall (fun row => length row = 1%nat) d ->
  (2 <= length d)%nat ->
  exists ps,
    _interpolate_row_index ctx = Ok ps /\ _interpolate_trace_index ctx = Ok ps.
Proof.
  intros Hctx Hrows Hlen.
  apply from_densities_inv in Hctx. destruct Hctx as [Hd [Hr [Ht _]]].
  assert (Hn : n_traces ctx = n_rows ctx).
  { rewrite Ht, Hr. unfold Py.sum_int. rewrite (sum_int_single_rows d Hrows). lia. }
  assert (Hsame : _interpolate_trace_index ctx = _interpolate_row_index ctx).
  { rewrite trace_index_spec, Hd, Hn, (positions_single_rows _ d Hrows).
    unfold _interpolate_row_index, Py.enumerate. rewrite Hd. reflexivity. }
  rewrite Hsame.
  assert (Hdef : exists ps, _interpolate_row_index ctx = Ok ps).
  { unfold _interpolate_row_index. apply mapM_total. intros [i row] _.
    rewrite int_truediv_nonzero; [simpl; eauto |].
    rewrite Hr. unfold Py.len. lia. }
  destruct Hdef as [ps Hps]. exists ps. split; exact Hps.
Qed.

End Claims.

(** ** The claims on sample data, with the collaborators of the model *)

Import Samples.

Lemma C1_witness :
  valid_densities (densities (context mixed 0 5))
  /\ exists colors,
       SpecModel.compute_trace_colors
         (SpecModel.Named "Viridis") "trace-index" None (context mixed 0 5)
       = Ok colors
       /\ shape colors = shape (densities (context mixed 0 5)).
Proof.
  assert (Hvalid : valid_densities (densities (context mixed 0 5))).
  { apply valid_densitiesb_sound. reflexivity. }
  split; [exact Hvalid |].
  refine (proj2 (C1_compute_trace_colors_shape
                   exact_arith SpecModel.normalise_min_max _ _ _
                   (SpecModel.normalise_colorscale SpecModel.palettes)
                   SpecModel.interpolate_color SpecModel.apply_alpha
                   (SpecModel.Named "Viridis") "trace-index" None
                   (context mixed 0 5) _interpolate_trace_index
                   [[1; 3 # 4; 1 # 2]; [1 # 4; 0]]
                   Hvalid eq_refl eq_refl)
                _ eq_refl _).
  intros p Hp. simpl in Hp.
  repeat (destruct Hp as [<- | Hp]; [eexists; vm_compute; reflexivity |]).
  destruct Hp.
Defined.

Lemma C2_witness :
  from_densities SpecModel.get_xy_extrema [[trace_A; trace_B]]
  = Ok (context one_row 0 4)
  /\ _interpolate_row_index (context one_row 0 4) = Err ZeroDivisionError.
Proof.
  assert (H : from_densities SpecModel.get_xy_extrema [[trace_A; trace_B]]
              = Ok (context one_row 0 4)) by reflexivity.
  split; [exact H |].
  exact (proj1 (C2_row_index_single_row_raises
                  SpecModel.get_xy_extrema exact_arith SpecModel.normalise_min_max _ _ _
                  (SpecModel.normalise_colorscale SpecModel.palettes)
                  SpecModel.interpolate_color SpecModel.apply_alpha _ _ H)).
Defined.

(** One row, two traces: the row-index colormode gives no colour at all. *)
Lemma C2_counterexample :
  from_densities SpecModel.get_xy_extrema [[trace_A; trace_B]]
  = Ok (context one_row 0 4)
  /\ n_rows (context one_row 0 4) = 1%Z
  /\ _interpolate_row_index (context one_row 0 4) = Err ZeroDivisionError
  /\ ~ exists colors,
         SpecModel.compute_trace_colors
           (SpecModel.Named "Viridis") "row-index" None (context one_row 0 4)
         = Ok colors.
Proof.
  repeat split. intros [colors H]. discriminate H.
Qed.

Lemma C3_witness :
  ~ In "bogus"%string (Py.keys (COLORMODE_MAPS exact_arith SpecModel.normalise_min_max))
  /\ SpecModel.compute_trace_colors
       (SpecModel.Named "Viridis") "bogus" None (context one_row 0 4)
     = Err (ValueError
              (colormode_error_message exact_arith SpecModel.normalise_min_max "bogus")).
Proof.
  assert (H : ~ In "bogus"%string
                (Py.keys (COLORMODE_MAPS exact_arith SpecModel.normalise_min_max))).
  { simpl. intros H. repeat (destruct H as [H | H]; [discriminate H |]). exact H. }
  split; [exact H |].
  refine (proj1 (C3_unknown_colormode_after_colorscale
                   exact_arith SpecModel.normalise_min_max _ _ _
                   (SpecModel.normalise_colorscale SpecModel.palettes)
                   SpecModel.interpolate_color SpecModel.apply_alpha
                   (SpecModel.Named "Viridis") "bogus" None
                   (context one_row 0 4) H) _ eq_refl).
Defined.

(** An empty colour scale together with an unknown colormode: the error is
    the one of the colour scale, not the one that lists the colormodes. *)
Lemma C3_counterexample :
  ~ In "bogus"%string (Py.keys (COLORMODE_MAPS exact_arith SpecModel.normalise_min_max))
  /\ SpecModel.compute_trace_colors
       (SpecModel.Flat []) "bogus" None (context one_row 0 4)
     = Err (ValueError "the colorscale is empty")
  /\ SpecModel.compute_trace_colors
       (SpecModel.Flat []) "bogus" None (context one_row 0 4)
     <> Err (ValueError
               (colormode_error_message exact_arith SpecModel.normalise_min_max "bogus")).
Proof.
  split; [| split].
  - simpl. intros H. repeat (destruct H as [H | H]; [discriminate H |]). exact H.
  - reflexivity.
  - vm_compute. discriminate.
Qed.




Lemma C6_witness :
  In [trace_A; massless] (densities (context with_massless 0 2))
  /\ In massless [trace_A; massless]
  /\ total_mass exact_arith massless == 0
  /\ exists e,
       _interpolate_mean_means exact_arith SpecModel.normalise_min_max
                               (context with_massless 0 2) = Err e.
Proof.
  assert (Hrow : In [trace_A; massless] (densities (context with_massless 0 2))).
  { left. reflexivity. }
  assert (Htrace : In massless [trace_A; massless]).
  { right. left. reflexivity. }
  assert (Hz : total_mass exact_arith massless == 0).
  { vm_compute. reflexivity. }
  repeat (split; [assumption |]).
  exact (proj1 (proj2 (C6_massless_trace_raises
                         exact_arith SpecModel.normalise_min_max _ _ _
                         (SpecModel.normalise_colorscale SpecModel.palettes)
                         SpecModel.interpolate_color SpecModel.apply_alpha
                         (context with_massless 0 2) _ _ Hrow Htrace Hz))).
Defined.

(** A valid grid with a trace of zero mass: both mean-based colormodes raise
    the division-by-zero error. *)
Lemma C6_counterexample :
  valid_densities with_massless
  /\ total_mass exact_arith massless == 0
  /\ _interpolate_mean_minmax exact_arith SpecModel.normalise_min_max (context with_massless 0 2)
     = Err ZeroDivisionError
  /\ _interpolate_mean_means exact_arith SpecModel.normalise_min_max (context with_massless 0 2)
     = Err ZeroDivisionError
  /\ ~ (exists colors,
          SpecModel.compute_trace_colors
            (SpecModel.Named "Viridis") "mean-minmax" None
            (context with_massless 0 2) = Ok colors)
  /\ ~ (exists colors,
          SpecModel.compute_trace_colors
            (SpecModel.Named "Viridis") "mean-means" None
            (context with_massless 0 2) = Ok colors).
Proof.
  split; [apply valid_densitiesb_sound; reflexivity |].
  split; [vm_compute; reflexivity |].
  split; [reflexivity |]. split; [reflexivity |].
  split; intros [colors H]; discriminate H.
Qed.

Lemma C7_witness :
  from_densities SpecModel.get_xy_extrema [[trace_A]; [trace_B]; [trace_C]]
  = Ok (context three_rows 0 5)
  /\ _interpolate_trace_index (context three_rows 0 5) = Ok [[1]; [1 # 2]; [0]].
Proof.
  assert (H : from_densities SpecModel.get_xy_extrema [[trace_A]; [trace_B]; [trace_C]]
              = Ok (context three_rows 0 5)) by reflexivity.
  split; [exact H |].
  exact (C7_trace_index_three_single_rows SpecModel.get_xy_extrema _ _ _ _ H).
Defined.

Lemma C8_witness :
  Forall (fun row : list Trace => length row <> 1%nat) (densities (context mixed 0 5))
  /\ exists ps,
       _interpolate_trace_index_row_wise (context mixed 0 5) = Ok ps
       /\ Forall2
            (fun (row : list Trace) ps_row =>
               length ps_row = length row /\ (row <> [] -> last ps_row 1 = 0%Q))
            mixed ps.
Proof.
  assert (H : Forall (fun row : list Trace => length row <> 1%nat)
                     (densities (context mixed 0 5))).
  { repeat constructor; simpl; lia. }
  split; [exact H |].
  exact (C8_row_wise_last_trace_at_zero (context mixed 0 5) H).
Defined.

(** A valid grid whose second row has a single trace: the strategy raises,
    and the last trace of the first row gets no position either. *)
Lemma C8_counterexample :
  valid_densities uneven
  /\ _interpolate_trace_index_row_wise (context uneven 0 5) = Err ZeroDivisionError
  /\ ~ exists ps,
         _interpolate_trace_index_row_wise (context uneven 0 5) = Ok ps.
Proof.
  split; [apply valid_densitiesb_sound; reflexivity |].
  split; [reflexivity |]. intros [ps H]. discriminate H.
Qed.

Lemma C9_witness :
  from_densities SpecModel.get_xy_extrema three_rows = Ok (context three_rows 0 5)
  /\ from_densities SpecModel.get_xy_extrema three_rows_permuted
     = Ok (context three_rows_permuted 0 5)
  /\ shape three_rows = shape three_rows_permuted
  /\ _interpolate_trace_index (context three_rows 0 5)
     = _interpolate_trace_index (context three_rows_permuted 0 5).
Proof.
  assert (H1 : from_densities SpecModel.get_xy_extrema three_rows
               = Ok (context three_rows 0 5)) by reflexivity.
  assert (H2 : from_densities SpecModel.get_xy_extrema three_rows_permuted
               = Ok (context three_rows_permuted 0 5)) by reflexivity.
  assert (Hs : shape three_rows = shape three_rows_permuted) by reflexivity.
  repeat (split; [assumption |]).
  exact (proj1 (proj2 (C9_index_strategies_depend_on_shape_only
                         SpecModel.get_xy_extrema _ _ _ _ H1 H2 Hs))).
Defined.

Lemma C10_witness :
  from_densities SpecModel.get_xy_extrema three_rows = Ok (context three_rows 0 5)
  /\ Forall (fun row => length row = 1%nat) three_rows
  /\ (2 <= length three_rows)%nat
  /\ exists ps,
       _interpolate_row_index (context three_rows 0 5) = Ok ps
       /\ _interpolate_trace_index (context three_rows 0 5) = Ok ps.
Proof.
  assert (H : from_densities SpecModel.get_xy_extrema three_rows
              = Ok (context three_rows 0 5)) by reflexivity.
  assert (Hrows : Forall (fun row : list Trace => length row = 1%nat) three_rows).
  { repeat constructor. }
  assert (Hlen : (2 <= length three_rows)%nat).
  { simpl. lia. }
  repeat (split; [assumption |]).
  exact (C10_row_index_is_trace_index_on_single_trace_rows
           SpecModel.get_xy_extrema _ _ H Hrows Hlen).
Defined.

(** * Further properties of the module *)

(** ** [_mul] *)

(** X1.  [_mul] stops at the end of the shorter tuple, and its element at
    every position before that is the product of the two elements there. *)
Theorem X1_mul_truncates_and_multiplies (ar : Arithmetic) (a b : list Q) :
  length (_mul ar a b) = Nat.min (length a) (length b)
  /\ forall i a_i b_i,
       nth_error a i = Some a_i -> nth_error b i = Some b_i ->
       nth_error (_mul ar a b) i = Some (num_mul ar a_i b_i).
Proof.
  unfold _mul. split.
  - rewrite length_map. apply length_combine.
  - revert b; induction a as [| x a IH]; intros b i a_i b_i Ha Hb.
    + destruct i; discriminate Ha.
    + destruct b as [| y b]; [destruct i; discriminate Hb |].
      destruct i as [| i]; simpl in *.
      * injection Ha as <-. injection Hb as <-. reflexivity.
      * apply IH; assumption.
Qed.

(** ** The arithmetic of the index positions *)

Lemma Qdiv_inject_pos (a : Z) (b : positive) :
  inject_Z a / inject_Z (Zpos b) == a # b.
Proof. unfold Qeq, Qdiv, Qmult, Qinv, inject_Z. simpl. lia. Qed.

Lemma Qmake_bounds (a : Z) (b : positive) :
  (0 <= a <= Z.pos b)%Z -> 0 <= a # b <= 1.
Proof. intros H. unfold Qle. cbn [Qnum Qden]. lia. Qed.

Lemma Qmake_lt (a a' : Z) (b : positive) : (a < a')%Z -> a # b < a' # b.
Proof. intros H. unfold Qlt. cbn [Qnum Qden]. nia. Qed.

Lemma index_position_first (n : Z) : n <> 1%Z -> index_position n 0 = Ok 1%Q.
Proof.
  intros Hn. unfold index_position.
  replace (n - 1 - 0)%Z with (n - 1)%Z by lia.
  rewrite int_truediv_nonzero by lia. f_equal.
  change 1%Q with (Qred 1). apply Qred_complete.
  unfold Qdiv. apply Qmult_inv_r.
  unfold Qeq, inject_Z. simpl. lia.
Qed.

Lemma index_position_value (n k : Z) (p : Q) :
  n <> 1%Z -> index_position n k = Ok p ->
  p == inject_Z (n - 1 - k) / inject_Z (n - 1).
Proof.
  intros Hn Hp. unfold index_position in Hp.
  rewrite int_truediv_nonzero in Hp by lia.
  injection Hp as <-. exact (Qred_correct _).
Qed.

(** The position of index [k] among [n >= 2] indices: its value, its bounds
    and the two ends. *)
Lemma index_position_facts (n k : Z) (p : Q) :
  (2 <= n)%Z -> (0 <= k < n)%Z -> index_position n k = Ok p ->
  p == inject_Z (n - 1 - k) / inject_Z (n - 1)
  /\ 0 <= p <= 1
  /\ (k = 0%Z -> p = 1%Q)
  /\ (k = (n - 1)%Z -> p = 0%Q).
Proof.
  intros Hn Hk Hp.
  assert (Hval : p == inject_Z (n - 1 - k) / inject_Z (n - 1)).
  { apply index_position_value; [lia | exact Hp]. }
  split; [exact Hval |]. split; [| split].
  - rewrite Hval.
    destruct (n - 1)%Z as [| b | b] eqn:Hb; try lia.
    rewrite Qdiv_inject_pos. apply Qmake_bounds. lia.
  - intros ->. rewrite index_position_first in Hp by lia.
    injection Hp as <-. reflexivity.
  - intros ->. rewrite index_position_last in Hp by lia.
    injection Hp as <-. reflexivity.
Qed.

(** A later index has a strictly smaller position. *)
Lemma index_position_decreasing (n i j : Z) (p q : Q) :
  (2 <= n)%Z -> (i < j)%Z ->
  index_position n i = Ok p -> index_position n j = Ok q -> q < p.
Proof.
  intros Hn Hij Hp Hq.
  apply index_position_value in Hp; [| lia].
  apply index_position_value in Hq; [| lia].
  rewrite Hp, Hq.
  destruct (n - 1)%Z as [| b | b] eqn:Hb; try lia.
  rewrite !Qdiv_inject_pos. apply Qmake_lt. lia.
Qed.

Lemma mapM_count_from_nth (g : Z -> result Q) (n : nat) :
  forall (i : Z) (r : list Q) (k : nat) (p : Q),
    Py.mapM g (count_from i n) = Ok r ->
    nth_error r k = Some p ->
    (k < n)%nat /\ g (i + Z.of_nat k)%Z = Ok p.
Proof.
  induction n as [| n IH]; intros i r k p Hr Hk; simpl in Hr.
  - injection Hr as <-. destruct k; discriminate Hk.
  - inv_bind Hr. injection Hr as <-. destruct k as [| k]; simpl in Hk.
    + injection Hk as <-. split; [lia |].
      replace (i + Z.of_nat 0)%Z with i by lia. exact Ha.
    + destruct (IH _ _ _ _ Ha0 Hk) as [Hlt Hg]. split; [lia |].
      replace (i + Z.of_nat (S k))%Z with (i + 1 + Z.of_nat k)%Z by lia. exact Hg.
Qed.

Lemma mapM_repeat_constant {A B : Type} (f : A -> result B) (a : A) (k : nat)
      (bs : list B) :
  Py.mapM f (repeat a k) = Ok bs -> forall b, In b bs -> f a = Ok b.
Proof.
  intros H b Hb. apply PyFacts.mapM_Ok_iff in H.
  destruct (Forall2_In_r _ _ _ _ H Hb) as [a' [Ha' Hf]].
  apply repeat_spec in Ha'. subst a'. exact Hf.
Qed.

Lemma enumerate_from_nth {A : Type} (l : list A) :
  forall (k : Z) (i : nat) (a : A),
    nth_error l i = Some a ->
    nth_error (Py.enumerate_from k l) i = Some ((k + Z.of_nat i)%Z, a).
Proof.
  induction l as [| x l IH]; intros k i a Ha; [destruct i; discriminate Ha |].
  destruct i as [| i]; simpl in *.
  - injection Ha as <-. do 2 f_equal. lia.
  - rewrite (IH _ _ _ Ha). do 2 f_equal. lia.
Qed.

Lemma Forall2_nth_l {A B : Type} (R : A -> B -> Prop) (l : list A) (l' : list B) :
  Forall2 R l l' ->
  forall i a, nth_error l i = Some a -> exists b, nth_error l' i = Some b /\ R a b.
Proof.
  induction 1 as [| a0 b0 l l' Hab _ IH]; intros i a Ha; [destruct i; discriminate Ha |].
  destruct i as [| i]; simpl in *.
  - injection Ha as <-. eauto.
  - apply IH, Ha.
Qed.

Lemma Forall2_nth_r {A B : Type} (R : A -> B -> Prop) (l : list A) (l' : list B) :
  Forall2 R l l' ->
  forall i b, nth_error l' i = Some b -> exists a, nth_error l i = Some a /\ R a b.
Proof.
  induction 1 as [| a0 b0 l l' Hab _ IH]; intros i b Hb; [destruct i; discriminate Hb |].
  destruct i as [| i]; simpl in *.
  - injection Hb as <-. eauto.
  - apply IH, Hb.
Qed.

Lemma sum_int_lengths (d : Densities) :
  forall a,
    fold_left Z.add (map (fun row => Py.len row) d) a
    = (a + Z.of_nat (length (concat d)))%Z.
Proof.
  induction d as [| row d IH]; intros a; simpl.
  - lia.
  - rewrite IH, length_app. unfold Py.len. lia.
Qed.

Lemma count_from_app (i : Z) (a b : nat) :
  count_from i (a + b) = count_from i a ++ count_from (i + Z.of_nat a) b.
Proof.
  revert i; induction a as [| a IH]; intros i.
  - simpl. f_equal. lia.
  - change (count_from i (S a + b)) with (i :: count_from (i + 1) (a + b)).
    rewrite IH. simpl. do 3 f_equal. lia.
Qed.

Lemma mapM_app {A B : Type} (f : A -> result B) (l1 l2 : list A) (b1 b2 : list B) :
  Py.mapM f l1 = Ok b1 -> Py.mapM f l2 = Ok b2 -> Py.mapM f (l1 ++ l2) = Ok (b1 ++ b2).
Proof.
  intros H1 H2. apply PyFacts.mapM_Ok_iff.
  apply Forall2_app; apply PyFacts.mapM_Ok_iff; assumption.
Qed.

(** Read row after row, the positions of the trace-index strategy are those
    of the consecutive global indices. *)
Lemma positions_by_global_index_concat (g : Z -> result Q) (rows : list (list Trace)) :
  forall i ps,
    positions_by_global_index g i rows = Ok ps ->
    Py.mapM g (count_from i (length (concat rows))) = Ok (concat ps).
Proof.
  induction rows as [| row rows IH]; intros i ps H; simpl in H.
  - injection H as <-. reflexivity.
  - inv_bind H. injection H as <-. simpl.
    rewrite length_app, count_from_app.
    apply mapM_app; [exact Ha |]. apply IH. exact Ha0.
Qed.

Lemma positions_by_global_index_defined (g : Z -> result Q) (rows : list (list Trace)) :
  (forall i, exists p, g i = Ok p) ->
  forall i, exists ps, positions_by_global_index g i rows = Ok ps.
Proof.
  intros Hg. induction rows as [| row rows IH]; intros i; simpl; [eauto |].
  destruct (mapM_total g (count_from i (length row))) as [r ->];
    [intros; apply Hg |].
  destruct (IH (i + Py.len row)%Z) as [rs ->]. simpl. eauto.
Qed.

Lemma positions_by_global_index_raises (g : Z -> result Q) (e : exn)
      (rows : list (list Trace)) :
  (forall i, g i = Err e) -> concat rows <> [] ->
  forall i, positions_by_global_index g i rows = Err e.
Proof.
  intros Hg. induction rows as [| row rows IH]; intros Hne i; [contradiction |].
  simpl. destruct row as [| trace row].
  - simpl. rewrite IH; [reflexivity | exact Hne].
  - simpl. rewrite Hg. reflexivity.
Qed.

Section Extras.

Variable get_xy_extrema : Densities -> result (Q * Q * Q * Q).
Variable ar : Arithmetic.
Variable normalise_min_max : Q -> Q -> Q -> result Q.
Variables ColorScaleArg ColorScale Color : Type.
Variable normalise_colorscale : ColorScaleArg -> result ColorScale.
Variable interpolate_color : ColorScale -> Q -> result Color.
Variable apply_alpha : Color -> Q -> result Color.

#[local] Abbreviation COLORMODES := (COLORMODE_MAPS ar normalise_min_max).
#[local] Abbreviation mean_minmax := (_interpolate_mean_minmax ar normalise_min_max).
#[local] Abbreviation mean_means := (_interpolate_mean_means ar normalise_min_max).
#[local] Abbreviation trace_colors :=
  (compute_trace_colors ar normalise_min_max normalise_colorscale
                        interpolate_color apply_alpha).
#[local] Abbreviation get_color := (_get_color interpolate_color apply_alpha).
#[local] Abbreviation context_of := (from_densities get_xy_extrema).

(** ** [InterpolationContext.from_densities] *)

(** X2.  [from_densities] fails exactly when [get_xy_extrema] does, with the
    same exception; otherwise the context holds the grid itself, its number
    of rows, the total number of its traces and the two x extrema. *)
Theorem X2_from_densities_counts (d : Densities) :
  (forall e, get_xy_extrema d = Err e -> context_of d = Err e)
  /\ (forall xmin xmax ymin ymax,
         get_xy_extrema d = Ok (xmin, xmax, ymin, ymax) ->
         exists ctx,
           context_of d = Ok ctx
           /\ densities ctx = d
           /\ n_rows ctx = Z.of_nat (length d)
           /\ n_traces ctx = Z.of_nat (length (concat d))
           /\ x_min ctx = xmin
           /\ x_max ctx = xmax).
Proof.
  unfold from_densities. split.
  - intros e ->. reflexivity.
  - intros xmin xmax ymin ymax ->. simpl.
    eexists. split; [reflexivity |]. simpl. repeat split.
    unfold Py.sum_int. rewrite sum_int_lengths. lia.
Qed.

Lemma n_traces_of_context (d : Densities) (ctx : InterpolationContext) :
  context_of d = Ok ctx -> n_traces ctx = Z.of_nat (length (concat d)).
Proof.
  intros H. apply from_densities_inv in H. destruct H as [_ [_ [-> _]]].
  unfold Py.sum_int. rewrite sum_int_lengths. lia.
Qed.

(** ** The row-index strategy *)

Lemma lookup_row_index :
  Py.lookup "row-index"%string COLORMODES = Some _interpolate_row_index.
Proof. reflexivity. Qed.

Lemma row_index_rows_constant (ctx : InterpolationContext)
      (ps : ColorscaleInterpolants) :
  _interpolate_row_index ctx = Ok ps ->
  Forall (fun r => exists p k, r = repeat p k) ps.
Proof.
  unfold _interpolate_row_index. intros H. apply PyFacts.mapM_Ok_iff in H.
  induction H as [| [i row] r l ps Hr _ IH]; constructor; [| exact IH].
  inv_bind Hr. injection Hr as <-. rewrite list_mul_len. eauto.
Qed.

(** X3.  Under the row-index colormode all the traces of a row get the same
    position, and [compute_trace_colors] gives them the same colour. *)
Theorem X3_row_index_one_colour_per_row
  (colorscale : ColorScaleArg) (coloralpha : option Q) (ctx : InterpolationContext) :
  (forall ps,
      _interpolate_row_index ctx = Ok ps ->
      Forall (fun r => forall p q, In p r -> In q r -> p = q) ps)
  /\ (forall colors,
         trace_colors colorscale "row-index"%string coloralpha ctx = Ok colors ->
         Forall (fun row => forall c1 c2, In c1 row -> In c2 row -> c1 = c2) colors).
Proof.
  split.
  - intros ps H. apply row_index_rows_constant in H.
    eapply Forall_impl; [| exact H].
    intros r [p0 [k ->]] p q Hp Hq.
    apply repeat_spec in Hp, Hq. congruence.
  - intros colors H. unfold compute_trace_colors in H. inv_bind H.
    rewrite lookup_row_index in H. cbv beta iota zeta in H. inv_bind H.
    apply row_index_rows_constant in Ha0.
    apply PyFacts.mapM_Ok_iff in H.
    apply Forall_forall. intros row Hrow c1 c2 H1 H2.
    destruct (Forall2_In_r _ _ _ _ H Hrow) as [r [Hr Hmap]].
    rewrite Forall_forall in Ha0. destruct (Ha0 r Hr) as [p [k ->]].
    pose proof (mapM_repeat_constant _ _ _ _ Hmap c1 H1) as E1.
    pose proof (mapM_repeat_constant _ _ _ _ Hmap c2 H2) as E2.
    congruence.
Qed.

(** X4.  On the context of a grid of at least two rows the row-index
    strategy returns a grid in which row [i] is filled with the position
    [((n - 1) - i) / (n - 1)], [n] being the number of rows: a number
    between 0 and 1, 1 for the first row and 0 for the last. *)
Theorem X4_row_index_positions
  (d : Densities) (ctx : InterpolationContext) :
  context_of d = Ok ctx ->
  (2 <= length d)%nat ->
  exists ps,
    _interpolate_row_index ctx = Ok ps
    /\ forall i row,
         nth_error d i = Some row ->
         exists p,
           nth_error ps i = Some (repeat p (length row))
           /\ p == inject_Z (Z.of_nat (length d) - 1 - Z.of_nat i)
                   / inject_Z (Z.of_nat (length d) - 1)
           /\ 0 <= p <= 1
           /\ (i = 0%nat -> p = 1%Q)
           /\ (S i = length d -> p = 0%Q).
Proof.
  intros Hctx Hlen. apply from_densities_inv in Hctx.
  destruct Hctx as [Hd [Hn _]]. unfold Py.len in Hn.
  assert (Hdef : exists ps, _interpolate_row_index ctx = Ok ps).
  { unfold _interpolate_row_index. apply mapM_total. intros [i row] _.
    rewrite int_truediv_nonzero by lia. simpl. eauto. }
  destruct Hdef as [ps Hps]. exists ps. split; [exact Hps |].
  intros i row Hrow.
  unfold _interpolate_row_index, Py.enumerate in Hps. rewrite Hd in Hps.
  apply PyFacts.mapM_Ok_iff in Hps.
  destruct (Forall2_nth_l _ _ _ Hps i _ (enumerate_from_nth d 0 i row Hrow))
    as [r [Hr Hrow']].
  inv_bind Hrow'. injection Hrow' as <-. rename a into p.
  assert (Hi : (i < length d)%nat).
  { apply nth_error_Some. rewrite Hrow. discriminate. }
  assert (Hp : index_position (Z.of_nat (length d)) (Z.of_nat i) = Ok p).
  { unfold index_position. rewrite <- Hn. exact Ha. }
  destruct (index_position_facts (Z.of_nat (length d)) (Z.of_nat i) p)
    as [Hval [Hbounds [Hfirst Hlast]]]; [lia | lia | exact Hp |].
  exists p. rewrite list_mul_len in Hr. split; [exact Hr |].
  split; [exact Hval |]. split; [exact Hbounds |]. split.
  - intros ->. apply Hfirst. reflexivity.
  - intros Hi'. apply Hlast. lia.
Qed.

(** ** The trace-index strategy *)

(** X5.  On the context of a grid of at least two traces the trace-index
    strategy returns a grid shaped like the densities in which, reading row
    after row, the [k]-th trace has the position [((n - 1) - k) / (n - 1)],
    [n] being the total number of traces: a number between 0 and 1, 1 for
    the first trace of the grid and 0 for the last. *)
Theorem X5_trace_index_positions
  (d : Densities) (ctx : InterpolationContext) :
  context_of d = Ok ctx ->
  (2 <= length (concat d))%nat ->
  exists ps,
    _interpolate_trace_index ctx = Ok ps
    /\ shape ps = shape d
    /\ forall k p,
         nth_error (concat ps) k = Some p ->
         p == inject_Z (Z.of_nat (length (concat d)) - 1 - Z.of_nat k)
                 / inject_Z (Z.of_nat (length (concat d)) - 1)
         /\ 0 <= p <= 1
         /\ (k = 0%nat -> p = 1%Q)
         /\ (S k = length (concat d) -> p = 0%Q).
Proof.
  intros Hctx Hlen.
  pose proof (n_traces_of_context d ctx Hctx) as Hn.
  apply from_densities_inv in Hctx. destruct Hctx as [Hd _].
  rewrite trace_index_spec, Hd, Hn.
  destruct (positions_by_global_index_defined
              (index_position (Z.of_nat (length (concat d)))) d) with (i := 0%Z)
    as [ps Hps].
  { intros i. apply index_position_defined. lia. }
  exists ps. split; [exact Hps |].
  split; [exact (positions_by_global_index_shape _ _ _ _ Hps) |].
  intros k p Hk.
  apply positions_by_global_index_concat in Hps.
  destruct (mapM_count_from_nth _ _ _ _ _ _ Hps Hk) as [Hlt Hp].
  rewrite Z.add_0_l in Hp.
  destruct (index_position_facts (Z.of_nat (length (concat d))) (Z.of_nat k) p)
    as [Hval [Hbounds [Hfirst Hlast]]]; [lia | lia | exact Hp |].
  split; [exact Hval |]. split; [exact Hbounds |]. split.
  - intros ->. apply Hfirst. reflexivity.
  - intros Hk'. apply Hlast. lia.
Qed.

(** X6.  On the context of a grid with a single trace in all, the
    trace-index strategy divides by [n_traces - 1 = 0] and raises. *)
Theorem X6_trace_index_single_trace_raises
  (d : Densities) (ctx : InterpolationContext) :
  context_of d = Ok ctx ->
  length (concat d) = 1%nat ->
  _interpolate_trace_index ctx = Err ZeroDivisionError.
Proof.
  intros Hctx Hlen.
  pose proof (n_traces_of_context d ctx Hctx) as Hn.
  apply from_densities_inv in Hctx. destruct Hctx as [Hd _].
  rewrite trace_index_spec, Hd, Hn, Hlen.
  apply positions_by_global_index_raises.
  - intros i. reflexivity.
  - intros Hnil. rewrite Hnil in Hlen. discriminate Hlen.
Qed.

(** ** The trace-index-row-wise strategy *)

(** X7.  Whenever the trace-index-row-wise strategy returns, the [k]-th
    trace of a row of [n] traces has the position [((n - 1) - k) / (n - 1)]:
    a number between 0 and 1, 1 for the first trace of the row and 0 for the
    last; no count kept in the context plays a part. *)
Theorem X7_row_wise_positions
  (ctx : InterpolationContext) (ps : ColorscaleInterpolants) :
  _interpolate_trace_index_row_wise ctx = Ok ps ->
  Forall2
    (fun (row : list Trace) r =>
       length r = length row
       /\ forall k p,
            nth_error r k = Some p ->
            p == inject_Z (Z.of_nat (length row) - 1 - Z.of_nat k)
                    / inject_Z (Z.of_nat (length row) - 1)
            /\ 0 <= p <= 1
            /\ (k = 0%nat -> p = 1%Q)
            /\ (S k = length row -> p = 0%Q))
    (densities ctx) ps.
Proof.
  rewrite row_wise_spec. intros H. apply PyFacts.mapM_Ok_iff in H.
  eapply Forall2_impl; [| exact H].
  intros row r Hr. split.
  - rewrite (PyFacts.mapM_length _ _ _ Hr). apply count_from_length.
  - intros k p Hk.
    destruct (mapM_count_from_nth _ _ _ _ _ _ Hr Hk) as [Hlt Hp].
    rewrite Z.add_0_l in Hp. unfold Py.len in Hp.
    assert (Hn : Z.of_nat (length row) <> 1%Z).
    { intros E. rewrite E in Hp. discriminate Hp. }
    destruct (index_position_facts (Z.of_nat (length row)) (Z.of_nat k) p)
      as [Hval [Hbounds [Hfirst Hlast]]]; [lia | lia | exact Hp |].
    split; [exact Hval |]. split; [exact Hbounds |]. split.
    + intros ->. apply Hfirst. reflexivity.
    + intros Hk'. apply Hlast. lia.
Qed.

(** ** The mean-based strategies on degenerate grids *)

Lemma first_pass_defined (d : Densities) :
  Forall (Forall (fun trace => ~ total_mass ar trace == 0)) d ->
  exists means,
    Py.mapM (Py.mapM (trace_mean ar)) d = Ok means /\ shape means = shape d.
Proof.
  intros H.
  destruct (mapM_total (Py.mapM (trace_mean ar)) d) as [means Hmeans].
  - intros row Hrow. apply mapM_total. intros trace Htrace.
    rewrite Forall_forall in H. specialize (H row Hrow).
    rewrite Forall_forall in H. specialize (H trace Htrace).
    exists (weighted_mean_x ar trace). apply trace_mean_Ok_iff. split; [exact H | reflexivity].
  - exists means. split; [exact Hmeans | exact (mapM2_shape _ _ _ Hmeans)].
Qed.

Lemma shape_In_nil {A B : Type} (g1 : list (list A)) (g2 : list (list B)) :
  shape g2 = shape g1 -> In [] g1 -> In [] g2.
Proof.
  revert g2; induction g1 as [| r1 g1 IH]; intros [| r2 g2] Hs Hin;
    try discriminate Hs; [destruct Hin |].
  simpl in Hs. injection Hs as Hlen Hs.
  destruct Hin as [-> | Hin].
  - left. destruct r2; [reflexivity | discriminate Hlen].
  - right. apply IH; assumption.
Qed.

Lemma min_Err_inv (l : list Q) (e : exn) :
  Py.min l = Err e -> e = ValueError "min() arg is an empty sequence".
Proof. destruct l; simpl; intros H; [injection H as <-; reflexivity | discriminate H]. Qed.

(** X8.  The mean-means strategy needs a trace in every row: on a grid
    without rows, or with a row without traces, it raises the [ValueError]
    of [min] on an empty sequence (the traces having a mean each), where the
    other four strategies return the empty grid for a grid without rows. *)
Theorem X8_mean_means_needs_a_trace_in_every_row (ctx : InterpolationContext) :
  (Forall (Forall (fun trace => ~ total_mass ar trace == 0)) (densities ctx) ->
   densities ctx = [] \/ In [] (densities ctx) ->
   mean_means ctx = Err (ValueError "min() arg is an empty sequence"))
  /\ (densities ctx = [] ->
      _interpolate_row_index ctx = Ok []
      /\ _interpolate_trace_index ctx = Ok []
      /\ _interpolate_trace_index_row_wise ctx = Ok []
      /\ mean_minmax ctx = Ok []).
Proof.
  split.
  - intros Hmass Hempty.
    destruct (first_pass_defined _ Hmass) as [means [Hmeans Hshape]].
    rewrite mean_means_spec, Hmeans. cbn [bind].
    destruct Hempty as [Hnil | Hin].
    + rewrite Hnil in Hshape. destruct means; [reflexivity | discriminate Hshape].
    + apply (shape_In_nil _ _ Hshape) in Hin.
      destruct (PyFacts.mapM_In_Err Py.min means [] _ Hin eq_refl) as [e He].
      rewrite He. cbn [bind]. apply f_equal.
      apply PyFacts.mapM_Err_inv in He. destruct He as [row [_ He]].
      exact (min_Err_inv _ _ He).
  - intros Hnil.
    unfold _interpolate_row_index, _interpolate_trace_index,
      _interpolate_trace_index_row_wise, _interpolate_mean_minmax.
    rewrite Hnil. repeat split.
Qed.

Lemma fold_min_repeat (m : Q) (k : nat) :
  fold_left (fun a w => if Py.Qltb w a then w else a) (repeat m k) m = m.
Proof. induction k as [| k IH]; simpl; [| destruct (Py.Qltb m m)]; auto. Qed.

Lemma fold_max_repeat (m : Q) (k : nat) :
  fold_left (fun a w => if Py.Qltb a w then w else a) (repeat m k) m = m.
Proof. induction k as [| k IH]; simpl; [| destruct (Py.Qltb m m)]; auto. Qed.

Lemma mapM_repeat_Ok {A B : Type} (f : A -> result B) (a : A) (b : B) (k : nat) :
  f a = Ok b -> Py.mapM f (repeat a k) = Ok (repeat b k).
Proof.
  intros H. induction k as [| k IH]; simpl; [reflexivity |].
  rewrite H, IH. reflexivity.
Qed.

Lemma rows_of_constant_Ok {A B C : Type} (f : A -> result B) (a : A) (b : B)
      (d : list (list C)) :
  f a = Ok b ->
  Py.mapM (Py.mapM f) (map (fun row => repeat a (length row)) d)
  = Ok (map (fun row => repeat b (length row)) d).
Proof.
  intros H. induction d as [| row d IH]; simpl; [reflexivity |].
  rewrite (mapM_repeat_Ok f a b _ H), IH. reflexivity.
Qed.

Lemma rows_of_constant_Err {A B C : Type} (f : A -> result B) (a : A) (e : exn)
      (d : list (list C)) :
  f a = Err e -> d <> [] -> Forall (fun row => row <> []) d ->
  Py.mapM (Py.mapM f) (map (fun row => repeat a (length row)) d) = Err e.
Proof.
  intros H Hne Hrows. destruct d as [| row d]; [contradiction |].
  inversion Hrows as [| ? ? Hrow _]; subst.
  destruct row as [| c row]; [contradiction |].
  simpl. rewrite H. reflexivity.
Qed.

Lemma rows_extremum_of_constant {C : Type} (f : list Q -> result Q) (m : Q)
      (d : list (list C)) :
  (forall k, f (repeat m (S k)) = Ok m) ->
  d <> [] -> Forall (fun row => row <> []) d ->
  Py.mapM f (map (fun row => repeat m (length row)) d) = Ok (repeat m (length d))
  /\ f (repeat m (length d)) = Ok m.
Proof.
  intros Hf Hne Hrows. split.
  - clear Hne. induction Hrows as [| row d Hrow _ IH]; simpl; [reflexivity |].
    destruct row as [| c row]; [contradiction |].
    simpl length. rewrite Hf, IH. reflexivity.
  - destruct d as [| row d]; [contradiction |]. simpl length. apply Hf.
Qed.

Lemma first_pass_of_equal_means (m : Q) (d : Densities) :
  Forall (Forall (fun trace => ~ total_mass ar trace == 0 /\ weighted_mean_x ar trace = m)) d ->
  Py.mapM (Py.mapM (trace_mean ar)) d = Ok (map (fun row => repeat m (length row)) d).
Proof.
  intros H. apply mapM2_Ok_iff.
  induction H as [| row d Hrow _ IH]; simpl; constructor; [| exact IH].
  induction Hrow as [| trace row [Hmass Hm] _ IHrow]; simpl; constructor;
    [| exact IHrow].
  apply trace_mean_Ok_iff. split; [exact Hmass | symmetry; exact Hm].
Qed.

(** X9.  When all the traces of a valid grid have the same weighted mean
    [m] (a grid of a single trace, say), the least and the greatest mean are
    both [m]: the mean-means strategy calls [normalise_min_max(m, m, m)],
    gives its result to every trace, and raises what it raises. *)
Theorem X9_mean_means_equal_means (ctx : InterpolationContext) (m : Q) :
  densities ctx <> [] ->
  Forall (fun row => row <> []) (densities ctx) ->
  Forall
    (Forall (fun trace => ~ total_mass ar trace == 0 /\ weighted_mean_x ar trace = m))
    (densities ctx) ->
  mean_means ctx
  = (p <- normalise_min_max m m m ;;
     Ok (map (fun row : list Trace => repeat p (length row)) (densities ctx))).
Proof.
  intros Hne Hrows Hmeans.
  rewrite mean_means_spec, (first_pass_of_equal_means m _ Hmeans). cbn [bind].
  destruct (rows_extremum_of_constant Py.min m (densities ctx)) as [Hmins Hmin];
    [intros k; simpl; f_equal; apply fold_min_repeat | exact Hne | exact Hrows |].
  destruct (rows_extremum_of_constant Py.max m (densities ctx)) as [Hmaxs Hmax];
    [intros k; simpl; f_equal; apply fold_max_repeat | exact Hne | exact Hrows |].
  rewrite Hmins. cbn [bind]. rewrite Hmin. cbn [bind].
  rewrite Hmaxs. cbn [bind]. rewrite Hmax. cbn [bind].
  destruct (normalise_min_max m m m) as [p | e] eqn:Hp; cbn [bind].
  - apply (rows_of_constant_Ok (fun mean => normalise_min_max mean m m)). exact Hp.
  - apply (rows_of_constant_Err (fun mean => normalise_min_max mean m m));
      assumption.
Qed.

(** X10.  Under mean-minmax the position of a trace depends on the trace
    and on the two extrema of the context only: the same trace gets the same
    position wherever it stands, in any two grids normalised against the
    same extrema. *)
Theorem X10_mean_minmax_is_local
  (ctx ctx' : InterpolationContext) (ps ps' : ColorscaleInterpolants)
  (i j i' j' : nat) (row row' : list Trace) (trace : Trace) :
  x_min ctx = x_min ctx' -> x_max ctx = x_max ctx' ->
  mean_minmax ctx = Ok ps -> mean_minmax ctx' = Ok ps' ->
  nth_error (densities ctx) i = Some row -> nth_error row j = Some trace ->
  nth_error (densities ctx') i' = Some row' -> nth_error row' j' = Some trace ->
  exists r r' p,
    nth_error ps i = Some r /\ nth_error r j = Some p
    /\ nth_error ps' i' = Some r' /\ nth_error r' j' = Some p
    /\ normalise_min_max (weighted_mean_x ar trace) (x_min ctx) (x_max ctx) = Ok p.
Proof.
  intros Hmin Hmax Hps Hps' Hrow Htrace Hrow' Htrace'.
  rewrite mean_minmax_spec in Hps, Hps'. rewrite <- Hmin, <- Hmax in Hps'.
  apply mapM2_Ok_iff in Hps, Hps'.
  destruct (Forall2_nth_l _ _ _ Hps _ _ Hrow) as [r [Hr Hrr]].
  destruct (Forall2_nth_l _ _ _ Hrr _ _ Htrace) as [p [Hp Hval]].
  destruct (Forall2_nth_l _ _ _ Hps' _ _ Hrow') as [r' [Hr' Hrr']].
  destruct (Forall2_nth_l _ _ _ Hrr' _ _ Htrace') as [p' [Hp' Hval']].
  assert (p' = p) by congruence. subst p'.
  exists r, r', p. repeat (split; [assumption |]).
  inv_bind Hval. apply trace_mean_Ok_iff in Ha. destruct Ha as [_ ->]. exact Hval.
Qed.

(** ** [compute_trace_colors] *)

Lemma get_color_Ok_iff (cs : ColorScale) (coloralpha : option Q) (p : Q) (c : Color) :
  get_color cs (option_map Py.float coloralpha) p = Ok c
  <-> exists color,
        interpolate_color cs p = Ok color
        /\ match coloralpha with
           | Some alpha => apply_alpha color alpha = Ok c
           | None => c = color
           end.
Proof.
  unfold _get_color. split.
  - intros H. inv_bind H. exists a. split; [exact Ha |].
    destruct coloralpha as [alpha |]; simpl in H.
    + exact H.
    + injection H as <-. reflexivity.
  - intros [color [Hcolor H]]. rewrite Hcolor. cbn [bind].
    destruct coloralpha as [alpha |]; simpl.
    + exact H.
    + rewrite H. reflexivity.
Qed.

(** X11.  [compute_trace_colors] returns a grid of colours exactly when the
    colour scale normalises, the colormode is in the table, its strategy
    returns interpolants and every interpolant is given a colour; the colour
    at a place is then what [interpolate_color] gives for the interpolant at
    that place on the normalised scale, passed through [apply_alpha] with the
    given alpha when there is one, and left as it is when there is none. *)
Theorem X11_compute_trace_colors_returns_iff
  (colorscale : ColorScaleArg) (colormode : string) (coloralpha : option Q)
  (ctx : InterpolationContext) (colors : ColorsArray Color) :
  trace_colors colorscale colormode coloralpha ctx = Ok colors
  <-> exists cs f interpolants,
        normalise_colorscale colorscale = Ok cs
        /\ Py.lookup colormode COLORMODES = Some f
        /\ f ctx = Ok interpolants
        /\ Forall2
             (Forall2 (fun p c =>
                         exists color,
                           interpolate_color cs p = Ok color
                           /\ match coloralpha with
                              | Some alpha => apply_alpha color alpha = Ok c
                              | None => c = color
                              end))
             interpolants colors.
Proof.
  unfold compute_trace_colors. split.
  - intros H. inv_bind H. rename a into cs.
    destruct (Py.lookup colormode COLORMODES) as [f |] eqn:Hf; [| discriminate H].
    cbv beta iota zeta in H. inv_bind H. rename a into interpolants.
    exists cs, f, interpolants. repeat (split; [assumption || reflexivity |]).
    apply mapM2_Ok_iff in H. revert H. apply Forall2_grid_impl.
    intros p c Hc. apply get_color_Ok_iff. exact Hc.
  - intros [cs [f [interpolants [Hcs [Hf [Hps Hcolors]]]]]].
    rewrite Hcs. cbn [bind]. rewrite Hf. cbv beta iota zeta.
    rewrite Hps. cbn [bind]. apply mapM2_Ok_iff.
    revert Hcolors. apply Forall2_grid_impl.
    intros p c Hc. apply get_color_Ok_iff. exact Hc.
Qed.

(** X12.  Once the colour scale is normalised and the colormode found, an
    exception of the strategy comes out of [compute_trace_colors] as it is,
    and a single interpolant that [_get_color] rejects leaves the call
    without any colour. *)
Theorem X12_compute_trace_colors_all_or_nothing
  (colorscale : ColorScaleArg) (colormode : string) (coloralpha : option Q)
  (ctx : InterpolationContext) (cs : ColorScale) (f : InterpolationFunc) :
  normalise_colorscale colorscale = Ok cs ->
  Py.lookup colormode COLORMODES = Some f ->
  (forall e,
      f ctx = Err e -> trace_colors colorscale colormode coloralpha ctx = Err e)
  /\ (forall interpolants row p e,
         f ctx = Ok interpolants -> In row interpolants -> In p row ->
         get_color cs (option_map Py.float coloralpha) p = Err e ->
         exists e', trace_colors colorscale colormode coloralpha ctx = Err e').
Proof.
  intros Hcs Hf. unfold compute_trace_colors.
  rewrite Hcs. cbn [bind]. rewrite Hf. cbv beta iota zeta. split.
  - intros e ->. reflexivity.
  - intros interpolants row p e -> Hrow Hp He. cbn [bind].
    exact (mapM2_In_Err _ _ _ _ _ Hrow Hp He).
Qed.

End Extras.

(** ** The token check of the changelog test *)

Module MystRolesFacts.

Import MystRoles.

(** Induction on a token, with the property for all its children. *)
Lemma Token_children_ind (P : Token -> Prop) :
  (forall type meta children,
      match children with Some tkns => Forall P tkns | None => True end ->
      P (mkToken type meta children)) ->
  forall token, P token.
Proof.
  intros H.
  exact (fix F (token : Token) : P token :=
           match token with
           | mkToken type meta children =>
               H type meta children
                 (match children
                        return match children with
                               | Some tkns => Forall P tkns
                               | None => True
                               end
                  with
                  | Some tkns =>
                      (fix G (l : list Token) : Forall P l :=
                         match l with
                         | [] => Forall_nil P
                         | t :: l' => Forall_cons t (F t) (G l')
                         end) tkns
                  | None => I
                  end)
           end).
Qed.

Section Validate.

Variable repr : list (string * string) -> string.

Lemma find_app {A : Type} (f : A -> bool) (l1 l2 : list A) :
  find f (l1 ++ l2) = match find f l1 with Some a => Some a | None => find f l2 end.
Proof.
  induction l1 as [| a l1 IH]; simpl; [reflexivity |].
  destruct (f a); [reflexivity | exact IH].
Qed.

Lemma verdict_app (l1 l2 : list Token) :
  verdict repr (find unexpected_role (l1 ++ l2))
  = (_ <- verdict repr (find unexpected_role l1) ;; verdict repr (find unexpected_role l2)).
Proof.
  rewrite find_app. destruct (find unexpected_role l1); reflexivity.
Qed.

Lemma validate_token_eq (token : Token) :
  validate_token repr token
  = (_ <- match children token with
          | Some ((_ :: _) as tkns) => validate_tokens repr tkns
          | _ => Ok tt
          end ;;
     if unexpected_role token
     then Err (ValueError ("Unexpected myst role: " ++ repr (meta token)))
     else Ok tt).
Proof. destruct token as [type meta [[| t l] |]]; reflexivity. Qed.

Lemma descendants_then_self_eq (token : Token) :
  descendants_then_self token
  = match children token with
    | Some tkns => tokens_in_order tkns
    | None => []
    end ++ [token].
Proof. destruct token as [type meta [tkns |]]; reflexivity. Qed.

Lemma verdict_single (token : Token) :
  verdict repr (find unexpected_role [token])
  = if unexpected_role token
    then Err (ValueError ("Unexpected myst role: " ++ repr (meta token)))
    else Ok tt.
Proof. cbn [find]. destruct (unexpected_role token); reflexivity. Qed.

Lemma validate_tokens_verdict (tkns : list Token) :
  Forall (fun t => validate_token repr t
                   = verdict repr (find unexpected_role (descendants_then_self t)))
         tkns ->
  validate_tokens repr tkns = verdict repr (find unexpected_role (tokens_in_order tkns)).
Proof.
  unfold tokens_in_order.
  induction 1 as [| t l Ht _ IH]; [reflexivity |].
  cbn [validate_tokens flat_map]. rewrite verdict_app, Ht, IH. reflexivity.
Qed.

Lemma validate_token_verdict (token : Token) :
  validate_token repr token = verdict repr (find unexpected_role (descendants_then_self token)).
Proof.
  induction token as [type meta children IH] using Token_children_ind.
  rewrite validate_token_eq, descendants_then_self_eq, verdict_app, verdict_single.
  cbn [MystRoles.children].
  destruct children as [[| t l] |]; try reflexivity.
  rewrite (validate_tokens_verdict _ IH). reflexivity.
Qed.

Lemma find_None_iff {A : Type} (f : A -> bool) (l : list A) :
  find f l = None <-> Forall (fun a => f a = false) l.
Proof.
  induction l as [| a l IH]; simpl.
  - split; [constructor | reflexivity].
  - destruct (f a) eqn:E.
    + split; [discriminate |]. intros H. inversion H; subst. congruence.
    + rewrite IH. split.
      * intros H. constructor; assumption.
      * intros H. inversion H; assumption.
Qed.

(** X13.  [validate_tokens repr] raises for the first token, children before
    their parent and in the order of the list, that is a myst role whose
    name (the empty string when [meta] has no name) is not [gh-pr], with the
    [meta] of that token in the message; it returns exactly when there is no
    such token at any depth. *)
Theorem X13_validate_tokens_first_unexpected_role (tkns : list Token) :
  validate_tokens repr tkns = verdict repr (find unexpected_role (tokens_in_order tkns))
  /\ (validate_tokens repr tkns = Ok tt
      <-> Forall (fun token => unexpected_role token = false) (tokens_in_order tkns)).
Proof.
  assert (H : validate_tokens repr tkns
              = verdict repr (find unexpected_role (tokens_in_order tkns))).
  { apply validate_tokens_verdict. apply Forall_forall. intros t _.
    apply validate_token_verdict. }
  split; [exact H |].
  rewrite H, <- find_None_iff.
  destruct (find unexpected_role (tokens_in_order tkns)); simpl.
  - split; discriminate.
  - split; reflexivity.
Qed.

End Validate.

End MystRolesFacts.

(** ** The further properties on sample data *)

Lemma X2_witness :
  SpecModel.get_xy_extrema mixed = Ok (0, 5, 1 # 2, 3)
  /\ exists ctx,
       from_densities SpecModel.get_xy_extrema mixed = Ok ctx
       /\ n_rows ctx = 2%Z /\ n_traces ctx = 5%Z.
Proof.
  assert (H : SpecModel.get_xy_extrema mixed = Ok (0, 5, 1 # 2, 3)) by reflexivity.
  split; [exact H |].
  destruct (proj2 (X2_from_densities_counts SpecModel.get_xy_extrema mixed) _ _ _ _ H)
    as [ctx [Hctx [_ [Hrows [Htraces _]]]]].
  exists ctx. split; [exact Hctx |]. split; assumption.
Defined.

Lemma X3_witness :
  SpecModel.compute_trace_colors
    (SpecModel.Named "Viridis") "row-index" None (context mixed 0 5)
  = Ok [ repeat (SpecModel.mkColor 253 231 37 None) 3;
         repeat (SpecModel.mkColor 68 1 84 None) 2 ]
  /\ Forall (fun row : list SpecModel.color =>
               forall c1 c2, In c1 row -> In c2 row -> c1 = c2)
            [ repeat (SpecModel.mkColor 253 231 37 None) 3;
              repeat (SpecModel.mkColor 68 1 84 None) 2 ].
Proof.
  assert (H : SpecModel.compute_trace_colors
                (SpecModel.Named "Viridis") "row-index" None (context mixed 0 5)
              = Ok [ repeat (SpecModel.mkColor 253 231 37 None) 3;
                     repeat (SpecModel.mkColor 68 1 84 None) 2 ]) by reflexivity.
  split; [exact H |].
  exact (proj2 (X3_row_index_one_colour_per_row
                  exact_arith SpecModel.normalise_min_max _ _ _
                  (SpecModel.normalise_colorscale SpecModel.palettes)
                  SpecModel.interpolate_color SpecModel.apply_alpha
                  (SpecModel.Named "Viridis") None (context mixed 0 5)) _ H).
Defined.

Lemma X4_witness :
  from_densities SpecModel.get_xy_extrema three_rows = Ok (context three_rows 0 5)
  /\ (2 <= length three_rows)%nat
  /\ exists ps, _interpolate_row_index (context three_rows 0 5) = Ok ps.
Proof.
  assert (H : from_densities SpecModel.get_xy_extrema three_rows
              = Ok (context three_rows 0 5)) by reflexivity.
  assert (Hlen : (2 <= length three_rows)%nat) by (simpl; lia).
  split; [exact H |]. split; [exact Hlen |].
  destruct (X4_row_index_positions SpecModel.get_xy_extrema _ _ H Hlen)
    as [ps [Hps _]].
  exists ps. exact Hps.
Defined.

Lemma X5_witness :
  from_densities SpecModel.get_xy_extrema mixed = Ok (context mixed 0 5)
  /\ (2 <= length (concat mixed))%nat
  /\ exists ps,
       _interpolate_trace_index (context mixed 0 5) = Ok ps
       /\ shape ps = shape mixed.
Proof.
  assert (H : from_densities SpecModel.get_xy_extrema mixed
              = Ok (context mixed 0 5)) by reflexivity.
  assert (Hlen : (2 <= length (concat mixed))%nat) by (simpl; lia).
  split; [exact H |]. split; [exact Hlen |].
  destruct (X5_trace_index_positions SpecModel.get_xy_extrema _ _ H Hlen)
    as [ps [Hps [Hshape _]]].
  exists ps. split; assumption.
Defined.

Lemma X6_witness :
  from_densities SpecModel.get_xy_extrema single_trace
  = Ok (context single_trace 0 2)
  /\ length (concat single_trace) = 1%nat
  /\ _interpolate_trace_index (context single_trace 0 2) = Err ZeroDivisionError.
Proof.
  assert (H : from_densities SpecModel.get_xy_extrema single_trace
              = Ok (context single_trace 0 2)) by reflexivity.
  assert (Hlen : length (concat single_trace) = 1%nat) by reflexivity.
  split; [exact H |]. split; [exact Hlen |].
  exact (X6_trace_index_single_trace_raises SpecModel.get_xy_extrema _ _ H Hlen).
Defined.

Lemma X7_witness :
  _interpolate_trace_index_row_wise (context mixed 0 5)
  = Ok [[1; 1 # 2; 0]; [1; 0]]
  /\ Forall2
       (fun (row : list Trace) r =>
          length r = length row
          /\ forall k p,
               nth_error r k = Some p ->
               p == inject_Z (Z.of_nat (length row) - 1 - Z.of_nat k)
                       / inject_Z (Z.of_nat (length row) - 1)
               /\ 0 <= p <= 1
               /\ (k = 0%nat -> p = 1%Q)
               /\ (S k = length row -> p = 0%Q))
       mixed [[1; 1 # 2; 0]; [1; 0]].
Proof.
  assert (H : _interpolate_trace_index_row_wise (context mixed 0 5)
              = Ok [[1; 1 # 2; 0]; [1; 0]]) by reflexivity.
  split; [exact H |].
  exact (X7_row_wise_positions (context mixed 0 5) _ H).
Defined.

Lemma nonzero_mass_A : ~ total_mass exact_arith trace_A == 0.
Proof. intros H. vm_compute in H. discriminate H. Defined.

Lemma X8_witness :
  Forall (Forall (fun trace => ~ total_mass exact_arith trace == 0))
         (densities (context with_empty_row 0 2))
  /\ In [] (densities (context with_empty_row 0 2))
  /\ _interpolate_mean_means exact_arith SpecModel.normalise_min_max (context with_empty_row 0 2)
     = Err (ValueError "min() arg is an empty sequence").
Proof.
  assert (Hmass : Forall (Forall (fun trace => ~ total_mass exact_arith trace == 0))
                         (densities (context with_empty_row 0 2))).
  { repeat constructor. exact nonzero_mass_A. }
  assert (Hin : In [] (densities (context with_empty_row 0 2))).
  { right. left. reflexivity. }
  split; [exact Hmass |]. split; [exact Hin |].
  exact (proj1 (X8_mean_means_needs_a_trace_in_every_row
                  exact_arith SpecModel.normalise_min_max (context with_empty_row 0 2))
               Hmass (or_intror Hin)).
Defined.

Lemma X9_witness :
  densities (context single_trace 0 2) <> []
  /\ Forall (fun row => row <> []) (densities (context single_trace 0 2))
  /\ Forall
       (Forall (fun trace => ~ total_mass exact_arith trace == 0 /\ weighted_mean_x exact_arith trace = 1%Q))
       (densities (context single_trace 0 2))
  /\ _interpolate_mean_means exact_arith SpecModel.normalise_min_max (context single_trace 0 2)
     = Err ZeroDivisionError.
Proof.
  assert (Hne : densities (context single_trace 0 2) <> []) by discriminate.
  assert (Hrows : Forall (fun row : list Trace => row <> [])
                         (densities (context single_trace 0 2))).
  { repeat constructor. discriminate. }
  assert (Hmeans : Forall
                     (Forall (fun trace =>
                                ~ total_mass exact_arith trace == 0
                                /\ weighted_mean_x exact_arith trace = 1%Q))
                     (densities (context single_trace 0 2))).
  { repeat constructor. exact nonzero_mass_A. }
  repeat (split; [assumption |]).
  rewrite (X9_mean_means_equal_means exact_arith SpecModel.normalise_min_max
             (context single_trace 0 2) 1 Hne Hrows Hmeans).
  reflexivity.
Defined.

Lemma X10_witness :
  exists r r' p,
    nth_error [[1 # 5; 2 # 5; 4 # 5]; [2 # 5; 1 # 5]] 0 = Some r
    /\ nth_error r 1 = Some p
    /\ nth_error [[1 # 5]; [2 # 5]; [4 # 5]] 1 = Some r'
    /\ nth_error r' 0 = Some p
    /\ SpecModel.normalise_min_max (weighted_mean_x exact_arith trace_B) 0 5 = Ok p.
Proof.
  exact (X10_mean_minmax_is_local exact_arith SpecModel.normalise_min_max
           (context mixed 0 5) (context three_rows 0 5)
           [[1 # 5; 2 # 5; 4 # 5]; [2 # 5; 1 # 5]] [[1 # 5]; [2 # 5]; [4 # 5]]
           0 1 1 0 [trace_A; trace_B; trace_C] [trace_B] trace_B
           eq_refl eq_refl eq_refl eq_refl eq_refl eq_refl eq_refl eq_refl).
Defined.

Lemma X11_witness :
  exists cs f interpolants,
    SpecModel.normalise_colorscale SpecModel.palettes (SpecModel.Named "Viridis")
    = Ok cs
    /\ Py.lookup "row-index" (COLORMODE_MAPS exact_arith SpecModel.normalise_min_max)
       = Some f
    /\ f (context mixed 0 5) = Ok interpolants
    /\ Forall2
         (Forall2 (fun p c =>
                     exists color,
                       SpecModel.interpolate_color cs p = Ok color
                       /\ SpecModel.apply_alpha color (1 # 2) = Ok c))
         interpolants
         [ repeat (SpecModel.mkColor 253 231 37 (Some (1 # 2))) 3;
           repeat (SpecModel.mkColor 68 1 84 (Some (1 # 2))) 2 ].
Proof.
  exact (proj1 (X11_compute_trace_colors_returns_iff
                  exact_arith SpecModel.normalise_min_max _ _ _
                  (SpecModel.normalise_colorscale SpecModel.palettes)
                  SpecModel.interpolate_color SpecModel.apply_alpha
                  (SpecModel.Named "Viridis") "row-index" (Some (1 # 2))
                  (context mixed 0 5) _) eq_refl).
Defined.

Lemma X12_witness :
  SpecModel.compute_trace_colors
    (SpecModel.Named "Viridis") "row-index" None (context one_row 0 4)
  = Err ZeroDivisionError.
Proof.
  exact (proj1 (X12_compute_trace_colors_all_or_nothing
                  exact_arith SpecModel.normalise_min_max _ _ _
                  (SpecModel.normalise_colorscale SpecModel.palettes)
                  SpecModel.interpolate_color SpecModel.apply_alpha
                  (SpecModel.Named "Viridis") "row-index" None
                  (context one_row 0 4) _ _ eq_refl eq_refl)
               ZeroDivisionError eq_refl).
Defined.

Import TokenSamples.

Lemma X13_witness :
  MystRoles.validate_tokens repr_plain_dict [inline]
  = Err (ValueError "Unexpected myst role: {'name': 'gh-issue'}")
  /\ MystRoles.validate_tokens repr_plain_dict
       [MystRoles.mkToken "inline" [] (Some [gh_pr_role])]
     = Ok tt.
Proof.
  split.
  - rewrite (proj1 (MystRolesFacts.X13_validate_tokens_first_unexpected_role
                      repr_plain_dict [inline])).
    reflexivity.
  - apply (proj2 (MystRolesFacts.X13_validate_tokens_first_unexpected_role
                    repr_plain_dict _)).
    repeat constructor.
Defined.
